(** * ToupBase camera driver (indi-toupbase): exposure, frame delivery,
      dual conversion gain and pulse guiding

    A shallow embedding of the parts of [indi_toupbase.cpp] that drive the
    exposure timeout/retry machine, the frame callbacks with their RGB plane
    split, the dual conversion gain switch and the ST4 guide timers.

    Conventions of the embedding:
    - a member function of [ToupBase] is a computation in the monad [Drv]:
      it reads and writes the fields of the object it touches and appends
      to a trace every call that leaves the driver (vendor SDK calls and
      signals to the INDI framework), in program order;
    - everything the driver obtains from outside (the [HRESULT] of an SDK
      call, the clock, the identifier of a new framework timer, the data
      behind the pointer of a callback) is an argument of the function;
    - [int] and [uint32_t] values are [Z], wrapped where the source
      computes with them; [double] and [float] values are rationals [Q]:
      the comparisons and the arithmetic are the ones of the source, the
      rounding of the machine format is left out;
    - [uint8_t] buffers are [list byte];
    - [indi_toupbase.h] is not among the sources: field types follow the
      use of the fields in the .cpp file, and the one constant of the header
      that matters, [MIN_DOWNLOAD_ESTIMATION], is a parameter.

    The definitions come first, module by module ([DualGain], [Guiding],
    [Capture], [Bayer], [GuideLoop]); the properties follow in the same
    order. *)

From Stdlib Require Import ZArith QArith Qround Lia Bool List Strings.Byte String.
From stdpp Require Import base list.
Import ListNotations.

Set Default Proof Using "Type".
#[local] Open Scope Z_scope.

(* ===================================================================== *)
(** * A state and trace monad for member functions                        *)
(* ===================================================================== *)

(** [Drv S E A]: a computation over an object of type [S] that returns an
    [A] and emits events of type [E]. *)
Definition Drv (S E A : Type) : Type := S -> A * S * list E.

Section DrvMonad.
Context {S E : Type}.

Definition drv_ret {A} (a : A) : Drv S E A := fun s => (a, s, []).

Definition drv_bind {A B} (f : A -> Drv S E B) (m : Drv S E A) : Drv S E B :=
  fun s =>
    let '(a, s1, t1) := m s in
    let '(b, s2, t2) := f a s1 in
    (b, s2, t1 ++ t2).

(** Read a field (or any view) of the object. *)
Definition reads {A} (f : S -> A) : Drv S E A := fun s => (f s, s, []).

(** Assign: replace the object by an updated copy. *)
Definition modify (f : S -> S) : Drv S E unit := fun s => (tt, f s, []).

(** A call that leaves the driver. *)
Definition emit (e : E) : Drv S E unit := fun s => (tt, s, [e]).

(** [when c m]: an [if] without [else]. *)
Definition when (c : bool) (m : Drv S E unit) : Drv S E unit :=
  if c then m else drv_ret tt.

Definition result {A} (r : A * S * list E) : A := fst (fst r).
Definition final {A} (r : A * S * list E) : S := snd (fst r).
Definition trace {A} (r : A * S * list E) : list E := snd r.
End DrvMonad.

#[global] Instance Drv_ret {S E} : MRet (Drv S E) := @drv_ret S E.
#[global] Instance Drv_bind {S E} : MBind (Drv S E) := @drv_bind S E.

(** Case analysis on the first test of the goal that is not nested in
    another one. *)
Ltac case_if :=
  match goal with
  | |- context [if ?c then _ else _] =>
      lazymatch c with
      | context [if _ then _ else _] => fail
      | _ => destruct c eqn:?; cbn
      end
  end.

(** Unfolding of the monad, for goals about one run of a function. *)
Ltac drv_unfold :=
  cbv [mbind mret Drv_bind Drv_ret drv_bind drv_ret reads modify emit when
       result final trace].

(* ===================================================================== *)
(** * Vendor SDK and INDI vocabulary                                      *)
(* ===================================================================== *)

(** [HRESULT] is a signed 32-bit status; [FAILED] is its sign test (the
    error table of the driver lists 0x8....... codes, negative as [int]). *)
Definition HRESULT := Z.
Definition S_OK : HRESULT := 0.
Definition E_FAIL : HRESULT := 0x80004005 - 2 ^ 32.
Definition FAILED (rc : HRESULT) : bool := (rc <? 0)%Z.
Definition SUCCEEDED (rc : HRESULT) : bool := (0 <=? rc)%Z.

Inductive ISState := ISS_OFF | ISS_ON.
Inductive IPState := IPS_IDLE | IPS_OK | IPS_BUSY | IPS_ALERT.

Definition is_on (s : ISState) : bool :=
  match s with ISS_ON => true | ISS_OFF => false end.
Definition is_off (s : ISState) : bool := negb (is_on s).

(** The strict comparison of two doubles, next to [Qle_bool]. *)
Definition Qlt_bool (x y : Q) : bool := negb (Qle_bool y x).

(** Conversion of a double to an integer type ([static_cast<int>],
    [static_cast<uint32_t>]): the fraction is dropped. *)
Definition Qtrunc (q : Q) : Z :=
  if Qle_bool 0 q then Qfloor q else Qceiling q.

(* ===================================================================== *)
(** * Dual conversion gain                                                *)
(* ===================================================================== *)

Module DualGain.

(** Index of [GainConversionS]. *)
Inductive GainMode := GAIN_LOW | GAIN_HIGH | GAIN_HDR.

Definition GainMode_eqb (a b : GainMode) : bool :=
  match a, b with
  | GAIN_LOW, GAIN_LOW | GAIN_HIGH, GAIN_HIGH | GAIN_HDR, GAIN_HDR => true
  | _, _ => false
  end.

(** The fields of [ToupBase] the gain functions touch. *)
Record ToupBase := {
  m_hasDualGain : bool;
  TC_HCG_THRESHOLD : Q;        (* GainConversionN[TC_HCG_THRESHOLD].value *)
  TC_HCG_LCG_RATIO : Q;        (* GainConversionN[TC_HCG_LCG_RATIO].value *)
  GainConversionS : GainMode -> ISState;
  GainConversionSP_s : IPState; (* GainConversionSP.s *)
  m_NativeGain : Q              (* a double, like the value the function returns *)
}.

Inductive Event :=
| put_Option_CG (mode : GainMode)   (* put_Option(OPTION_CG, mode) *)
| put_ExpoAGain (gain : Z)
| LOG_INFO (gain : Q)
| IDSetSwitch_GainConversionSP.

Abbreviation Fn := (Drv ToupBase Event).

Definition set_switches (f : GainMode -> ISState) (st : ToupBase) : ToupBase :=
  {| m_hasDualGain := m_hasDualGain st;
     TC_HCG_THRESHOLD := TC_HCG_THRESHOLD st;
     TC_HCG_LCG_RATIO := TC_HCG_LCG_RATIO st;
     GainConversionS := f;
     GainConversionSP_s := GainConversionSP_s st;
     m_NativeGain := m_NativeGain st |}.

Definition set_GainConversionSP_s (p : IPState) (st : ToupBase) : ToupBase :=
  {| m_hasDualGain := m_hasDualGain st;
     TC_HCG_THRESHOLD := TC_HCG_THRESHOLD st;
     TC_HCG_LCG_RATIO := TC_HCG_LCG_RATIO st;
     GainConversionS := GainConversionS st;
     GainConversionSP_s := p;
     m_NativeGain := m_NativeGain st |}.

Definition set_m_NativeGain (g : Q) (st : ToupBase) : ToupBase :=
  {| m_hasDualGain := m_hasDualGain st;
     TC_HCG_THRESHOLD := TC_HCG_THRESHOLD st;
     TC_HCG_LCG_RATIO := TC_HCG_LCG_RATIO st;
     GainConversionS := GainConversionS st;
     GainConversionSP_s := GainConversionSP_s st;
     m_NativeGain := g |}.

(** [IUResetSwitch]: every member of the vector is switched off. *)
Definition IUResetSwitch : Fn unit :=
  modify (fun st => set_switches (fun _ => ISS_OFF) st).

(** [GainConversionS[k].s = v]. *)
Definition assign_switch (k : GainMode) (v : ISState) : Fn unit :=
  modify (fun st =>
    set_switches
      (fun m => if GainMode_eqb m k then v else GainConversionS st m) st).

(** [ToupBase::dualGainEnabled]. *)
Definition dualGainEnabled (st : ToupBase) : bool :=
  m_hasDualGain st &&
  Qlt_bool 1.0001%Q (TC_HCG_LCG_RATIO st) &&
  is_off (GainConversionS st GAIN_HDR).

(** [ToupBase::setDualGainMode]. *)
Definition setDualGainMode (gain : Q) : Fn Q :=
  thr ← reads TC_HCG_THRESHOLD;
  sw ← reads GainConversionS;
  (if Qle_bool thr gain && is_off (sw GAIN_HIGH) then
     emit (put_Option_CG GAIN_HIGH);;
     emit (LOG_INFO gain);;
     IUResetSwitch;;
     modify (set_GainConversionSP_s IPS_OK);;
     assign_switch GAIN_HIGH ISS_ON;;
     emit IDSetSwitch_GainConversionSP
   else if Qlt_bool gain thr && is_off (sw GAIN_LOW) then
     emit (put_Option_CG GAIN_LOW);;
     emit (LOG_INFO gain);;
     IUResetSwitch;;
     modify (set_GainConversionSP_s IPS_OK);;
     assign_switch GAIN_LOW ISS_ON;;
     emit IDSetSwitch_GainConversionSP
   else mret tt);;
  (* If Gain Conversion High correct it for the additional gain factor *)
  sw ← reads GainConversionS;
  ratio ← reads TC_HCG_LCG_RATIO;
  gain ← (if is_on (sw GAIN_HIGH)
          then emit (LOG_INFO (gain / ratio)%Q);; mret (gain / ratio)%Q
          else mret gain);
  modify (set_m_NativeGain gain);;
  mret gain.


(** The rule of a one-of-many switch vector: no two members are on. *)
Definition one_of_many (st : ToupBase) : Prop :=
  forall a b,
    GainConversionS st a = ISS_ON -> GainConversionS st b = ISS_ON -> a = b.




(** The state of the driver right after [initProperties]: the three
    members are off, threshold 900, ratio 4.5. *)
Definition initial (hasDualGain : bool) : ToupBase :=
  {| m_hasDualGain := hasDualGain;
     TC_HCG_THRESHOLD := 900%Q;
     TC_HCG_LCG_RATIO := 4.5%Q;
     GainConversionS := fun _ => ISS_OFF;
     GainConversionSP_s := IPS_IDLE;
     m_NativeGain := 0%Q |}.

End DualGain.

(* ===================================================================== *)
(** * Machine integers                                                    *)
(* ===================================================================== *)

(** [uint32_t] arithmetic wraps modulo 2^32. *)
Definition to_uint32 (z : Z) : Z := z mod 2 ^ 32.

(** Conversion of a 32-bit pattern to [int] (two's complement). *)
Definition to_int (z : Z) : Z :=
  let u := to_uint32 z in if u <? 2 ^ 31 then u else u - 2 ^ 32.

Definition INT_MAX : Z := 2 ^ 31 - 1.

(* ===================================================================== *)
(** * ST4 pulse guiding                                                   *)
(* ===================================================================== *)

Module Guiding.

Inductive eGUIDEDIRECTION :=
  TOUPBASE_NORTH | TOUPBASE_SOUTH | TOUPBASE_EAST | TOUPBASE_WEST.

Inductive INDI_EQ_AXIS := AXIS_RA | AXIS_DE.

(** The fields of [ToupBase] the guide functions touch. A timer identifier
    of -1 means that no pulse is pending on the axis. ([NSDirName] and
    [WEDirName], the names of the directions for the log, are left out.) *)
Record ToupBase := {
  NStimerID : Z;
  WEtimerID : Z;
  NSDir : eGUIDEDIRECTION;
  WEDir : eGUIDEDIRECTION
}.

Inductive Event :=
| GuideComplete (axis : INDI_EQ_AXIS)
| IERmTimer (id : Z)
| IEAddTimer (millisecs : Z) (axis : INDI_EQ_AXIS)   (* an [int]; callback TimerHelperNS / WE *)
| ST4PlusGuide (dir : eGUIDEDIRECTION) (ms : Z)
| usleep (usec : Z)   (* a [useconds_t], unsigned *)
| LOG_ERROR
| Close.

Abbreviation Fn := (Drv ToupBase Event).

Definition set_NStimerID (id : Z) (st : ToupBase) : ToupBase :=
  {| NStimerID := id; WEtimerID := WEtimerID st;
     NSDir := NSDir st; WEDir := WEDir st |}.

Definition set_WEtimerID (id : Z) (st : ToupBase) : ToupBase :=
  {| NStimerID := NStimerID st; WEtimerID := id;
     NSDir := NSDir st; WEDir := WEDir st |}.

Definition set_NSDir (d : eGUIDEDIRECTION) (st : ToupBase) : ToupBase :=
  {| NStimerID := NStimerID st; WEtimerID := WEtimerID st;
     NSDir := d; WEDir := WEDir st |}.

Definition set_WEDir (d : eGUIDEDIRECTION) (st : ToupBase) : ToupBase :=
  {| NStimerID := NStimerID st; WEtimerID := WEtimerID st;
     NSDir := NSDir st; WEDir := d |}.

(** The constructor: [WEtimerID = NStimerID = -1]. *)
Definition initial : ToupBase :=
  {| NStimerID := -1; WEtimerID := -1;
     NSDir := TOUPBASE_NORTH; WEDir := TOUPBASE_WEST |}.

(** [ToupBase::TimerNS], the callback of the NS timer. *)
Definition TimerNS : Fn unit :=
  modify (set_NStimerID (-1));;
  emit (GuideComplete AXIS_DE).

(** [ToupBase::stopTimerNS]. *)
Definition stopTimerNS : Fn unit :=
  id ← reads NStimerID;
  when (negb (id =? -1))
    (emit (GuideComplete AXIS_DE);;
     emit (IERmTimer id);;
     modify (set_NStimerID (-1))).

(** [ToupBase::guidePulseNS]. [ms] is a [uint32_t]; [rc] is the status of
    [ST4PlusGuide], [tid] the identifier [IEAddTimer] hands out. [usleep]
    takes the [int uSecs] as an unsigned value, and [IEAddTimer] takes the
    [uint32_t ms] as an [int]. *)
Definition guidePulseNS (ms : Z) (dir : eGUIDEDIRECTION)
    (rc : HRESULT) (tid : Z) : Fn IPState :=
  stopTimerNS;;
  modify (set_NSDir dir);;
  (* If pulse < 50ms, we wait. Otherwise, we schedule it. *)
  let uSecs := to_int (ms * 1000) in
  emit (ST4PlusGuide dir ms);;
  if FAILED rc then
    emit LOG_ERROR;;
    mret IPS_ALERT
  else if ms <? 50 then
    emit (usleep (to_uint32 uSecs));;
    mret IPS_OK
  else
    emit (IEAddTimer (to_int ms) AXIS_DE);;
    modify (set_NStimerID tid);;
    mret IPS_BUSY.

Definition GuideNorth (ms : Z) := guidePulseNS ms TOUPBASE_NORTH.
Definition GuideSouth (ms : Z) := guidePulseNS ms TOUPBASE_SOUTH.

(** [ToupBase::TimerWE], the callback of the WE timer. *)
Definition TimerWE : Fn unit :=
  modify (set_WEtimerID (-1));;
  emit (GuideComplete AXIS_RA).

(** [ToupBase::stopTimerWE]. *)
Definition stopTimerWE : Fn unit :=
  id ← reads WEtimerID;
  when (negb (id =? -1))
    (emit (GuideComplete AXIS_RA);;
     emit (IERmTimer id);;
     modify (set_WEtimerID (-1))).

(** [ToupBase::guidePulseWE]. *)
Definition guidePulseWE (ms : Z) (dir : eGUIDEDIRECTION)
    (rc : HRESULT) (tid : Z) : Fn IPState :=
  stopTimerWE;;
  modify (set_WEDir dir);;
  let uSecs := to_int (ms * 1000) in
  emit (ST4PlusGuide dir ms);;
  if FAILED rc then
    emit LOG_ERROR;;
    mret IPS_ALERT
  else if ms <? 50 then
    emit (usleep (to_uint32 uSecs));;
    mret IPS_OK
  else
    emit (IEAddTimer (to_int ms) AXIS_RA);;
    modify (set_WEtimerID tid);;
    mret IPS_BUSY.

Definition GuideEast (ms : Z) := guidePulseWE ms TOUPBASE_EAST.
Definition GuideWest (ms : Z) := guidePulseWE ms TOUPBASE_WEST.

(** [ToupBase::Disconnect]. *)
Definition Disconnect : Fn bool :=
  stopTimerNS;;
  stopTimerWE;;
  emit Close;;
  mret true.

(** The two axes, and the per-axis view of the functions above. *)
Definition timerID (a : INDI_EQ_AXIS) (st : ToupBase) : Z :=
  match a with AXIS_DE => NStimerID st | AXIS_RA => WEtimerID st end.

Definition guidePulse (a : INDI_EQ_AXIS) :=
  match a with AXIS_DE => guidePulseNS | AXIS_RA => guidePulseWE end.

(** The timers of one axis the event loop holds after a run of the driver:
    [IEAddTimer] registers the identifier it returned (the one the driver
    stores), [IERmTimer] removes one. [tid] is the identifier handed out by
    the [IEAddTimer] of the trace, if it has one. *)
Fixpoint live_timers (a : INDI_EQ_AXIS) (tid : Z) (tr : list Event)
    (live : list Z) : list Z :=
  match tr with
  | [] => live
  | IERmTimer id :: tr' =>
      live_timers a tid tr' (filter (fun x => x ≠ id) live)
  | IEAddTimer _ a' :: tr' =>
      live_timers a tid tr'
        (match a, a' with
         | AXIS_DE, AXIS_DE | AXIS_RA, AXIS_RA => tid :: live
         | _, _ => live
         end)
  | _ :: tr' => live_timers a tid tr' live
  end.

(** What the driver believes is pending on an axis. *)
Definition pending (a : INDI_EQ_AXIS) (st : ToupBase) : list Z :=
  if timerID a st =? -1 then [] else [timerID a st].

(** Kinds of events, and the axis that is not [a]. *)
Definition is_GuideComplete (e : Event) : bool :=
  match e with GuideComplete _ => true | _ => false end.

Definition is_IERmTimer (e : Event) : bool :=
  match e with IERmTimer _ => true | _ => false end.

Definition is_ST4PlusGuide (e : Event) : bool :=
  match e with ST4PlusGuide _ _ => true | _ => false end.

Definition other (a : INDI_EQ_AXIS) : INDI_EQ_AXIS :=
  match a with AXIS_DE => AXIS_RA | AXIS_RA => AXIS_DE end.

End Guiding.

(* ===================================================================== *)
(** * Exposure machine and frame delivery                                 *)
(* ===================================================================== *)

Module Capture.

(** ** Time *)

Record timeval := { tv_sec : Z; tv_usec : Z }.

(** [timersub] and [timeradd] of <sys/time.h>. *)
Definition timersub (a b : timeval) : timeval :=
  let sec := tv_sec a - tv_sec b in
  let usec := tv_usec a - tv_usec b in
  if usec <? 0
  then {| tv_sec := sec - 1; tv_usec := usec + 1000000 |}
  else {| tv_sec := sec; tv_usec := usec |}.

Definition timeradd (a b : timeval) : timeval :=
  let sec := tv_sec a + tv_sec b in
  let usec := tv_usec a + tv_usec b in
  if 1000000 <=? usec
  then {| tv_sec := sec + 1; tv_usec := usec - 1000000 |}
  else {| tv_sec := sec; tv_usec := usec |}.

(** [t.tv_sec * 1000 + t.tv_usec / 1e3]: a time value in milliseconds,
    the way the callbacks compute it. *)
Definition millis (t : timeval) : Q :=
  (inject_Z (tv_sec t) * 1000 + inject_Z (tv_usec t) / 1000)%Q.

(** ** Byte buffers *)

(** [memcpy(dst, src, n)]. Reading past the end of [src] is undefined in C;
    the model then leaves the destination byte as it was. *)
Definition memcpy (dst src : list byte) (n : Z) : list byte :=
  let k := Z.to_nat n in
  take k (src ++ drop (length src) dst) ++ drop k dst.

(** [malloc(n)]: a fresh block; its indeterminate content is zero here. *)
Definition malloc (n : Z) : list byte := replicate (Z.to_nat n) x00.

(** [buffer[i]]. *)
Definition at_index (buffer : list byte) (i : Z) : byte :=
  default x00 (buffer !! Z.to_nat i).

(** [*p = b] for a pointer at offset [p] of [image]. A store past the end of
    the block (undefined in C) is dropped. *)
Definition store (image : list byte) (p : Z) (b : byte) : list byte :=
  <[Z.to_nat p := b]> image.

(** ** The RGB plane split of the two callbacks

    [for (int i = 0; i <= totalSize; i += 3)
       { *subR++ = buffer[i]; *subG++ = buffer[i + 1]; *subB++ = buffer[i + 2]; }]
    The pointers are offsets into [image]. [fuel] bounds the iterations. *)
Fixpoint rgb_loop (fuel : nat) (totalSize i : Z) (buffer : list byte)
    (subR subG subB : Z) (image : list byte) : list byte :=
  match fuel with
  | O => image
  | S fuel' =>
      if i <=? totalSize then
        let image := store image subR (at_index buffer i) in
        let image := store image subG (at_index buffer (i + 1)) in
        let image := store image subB (at_index buffer (i + 2)) in
        rgb_loop fuel' totalSize (i + 3) buffer
                 (subR + 1) (subG + 1) (subB + 1) image
      else image
  end.

(** The block around the loop: [width] and [height] are [uint32_t], the
    plane pointers start at [image], [image + width * height] and
    [image + width * height * 2], and [int totalSize = width * height * 3 - 3].
    The loop counter grows by 3 from 0, so [totalSize + 1] iterations are
    more than it can make. *)
Definition deinterleave (width height : Z) (buffer image : list byte)
    : list byte :=
  let subR := 0 in
  let subG := to_uint32 (width * height) in
  let subB := to_uint32 (width * height * 2) in
  let totalSize := to_int (width * height * 3 - 3) in
  rgb_loop (Z.to_nat (totalSize + 1)) totalSize 0 buffer subR subG subB image.

(** The three planes of a frame buffer of [n] pixels. *)
Definition plane (c : Z) (n : Z) (image : list byte) : list byte :=
  take (Z.to_nat n) (drop (Z.to_nat (c * n)) image).

(** The inverse the round-trip law speaks of (it has no counterpart in the
    driver): pixel [k] of the result is the byte triple
    [r[k], g[k], b[k]]. *)
Fixpoint interleave (r g b : list byte) : list byte :=
  match r, g, b with
  | x :: r', y :: g', z :: b' => x :: y :: z :: interleave r' g' b'
  | _, _, _ => []
  end.

(** A frame of [w] by [h] pixels whose three planes fit an [int]. *)
Definition frame_fits (w h : Z) : Prop :=
  0 < w /\ 0 < h /\ 3 * (w * h) <= INT_MAX.

(** ** The camera object *)

Inductive TriggerMode := TRIGGER_VIDEO | TRIGGER_SOFTWARE.

Inductive VideoFormat :=
  TC_VIDEO_COLOR_RGB | TC_VIDEO_COLOR_RAW | TC_VIDEO_MONO_8 | TC_VIDEO_MONO_16.

Definition is_RGB (f : VideoFormat) : bool :=
  match f with TC_VIDEO_COLOR_RGB => true | _ => false end.

(** [INDI::CCDChip], the part the driver reads and writes. *)
Record CCDChip := {
  XRes : Z; YRes : Z;
  SubX : Z; SubY : Z; SubW : Z; SubH : Z;
  BinX : Z; BinY : Z;
  BPP : Z;
  FrameBuffer : list byte;
  FrameBufferSize : Z
}.

(** [CCDChip::setFrame]. Its parameters are unsigned ([uint32_t] in
    libindi's indiccdchip.h, which is not among the sources): an [int]
    argument arrives as its 32-bit pattern. *)
Definition setFrame (x y w h : Z) (c : CCDChip) : CCDChip :=
  {| XRes := XRes c; YRes := YRes c;
     SubX := to_uint32 x; SubY := to_uint32 y;
     SubW := to_uint32 w; SubH := to_uint32 h;
     BinX := BinX c; BinY := BinY c; BPP := BPP c;
     FrameBuffer := FrameBuffer c; FrameBufferSize := FrameBufferSize c |}.

(** [CCDChip::setFrameBufferSize]: the block is reallocated to [nbuf]
    bytes (new bytes are zero here). *)
Definition setFrameBufferSize (nbuf : Z) (c : CCDChip) : CCDChip :=
  {| XRes := XRes c; YRes := YRes c;
     SubX := SubX c; SubY := SubY c; SubW := SubW c; SubH := SubH c;
     BinX := BinX c; BinY := BinY c; BPP := BPP c;
     FrameBuffer := resize (Z.to_nat nbuf) x00 (FrameBuffer c);
     FrameBufferSize := nbuf |}.

(** A write through [getFrameBuffer()]. *)
Definition setFrameBuffer (b : list byte) (c : CCDChip) : CCDChip :=
  {| XRes := XRes c; YRes := YRes c;
     SubX := SubX c; SubY := SubY c; SubW := SubW c; SubH := SubH c;
     BinX := BinX c; BinY := BinY c; BPP := BPP c;
     FrameBuffer := b; FrameBufferSize := FrameBufferSize c |}.

Record ToupBase := {
  connected : bool;   (* isConnected() *)
  InExposure : bool;
  ExposureRequest : Q;
  ExposureEnd : timeval;
  m_CurrentTriggerMode : TriggerMode;
  m_CanSnap : bool;
  m_CaptureTimeout : option Q;   (* the INDI::Timer: [Some ms] while it is armed *)
  m_CaptureTimeoutCounter : Z;
  m_TimeoutRetries : Z;
  m_DownloadEstimation : Q;
  TimeoutFactor : Q;   (* TimeoutFactorN[0].value *)
  m_MonoCamera : bool;
  m_CurrentVideoFormat : VideoFormat;
  m_Channels : Z;
  m_BitsPerPixel : Z;
  m_MaxBitDepth : Z;
  ResolutionIndex : Z;   (* IUFindOnSwitchIndex(&ResolutionSP) *)
  PrimaryCCD : CCDChip;
  streaming : bool   (* Streamer->isStreaming() || Streamer->isRecording() *)
}.

Definition set_InExposure (v : bool) (st : ToupBase) : ToupBase :=
  {| connected := connected st; InExposure := v;
     ExposureRequest := ExposureRequest st; ExposureEnd := ExposureEnd st;
     m_CurrentTriggerMode := m_CurrentTriggerMode st;
     m_CanSnap := m_CanSnap st; m_CaptureTimeout := m_CaptureTimeout st;
     m_CaptureTimeoutCounter := m_CaptureTimeoutCounter st;
     m_TimeoutRetries := m_TimeoutRetries st;
     m_DownloadEstimation := m_DownloadEstimation st;
     TimeoutFactor := TimeoutFactor st; m_MonoCamera := m_MonoCamera st;
     m_CurrentVideoFormat := m_CurrentVideoFormat st;
     m_Channels := m_Channels st; m_BitsPerPixel := m_BitsPerPixel st;
     m_MaxBitDepth := m_MaxBitDepth st;
     ResolutionIndex := ResolutionIndex st; PrimaryCCD := PrimaryCCD st;
     streaming := streaming st |}.

Definition set_ExposureRequest (v : Q) (st : ToupBase) : ToupBase :=
  {| connected := connected st; InExposure := InExposure st;
     ExposureRequest := v; ExposureEnd := ExposureEnd st;
     m_CurrentTriggerMode := m_CurrentTriggerMode st;
     m_CanSnap := m_CanSnap st; m_CaptureTimeout := m_CaptureTimeout st;
     m_CaptureTimeoutCounter := m_CaptureTimeoutCounter st;
     m_TimeoutRetries := m_TimeoutRetries st;
     m_DownloadEstimation := m_DownloadEstimation st;
     TimeoutFactor := TimeoutFactor st; m_MonoCamera := m_MonoCamera st;
     m_CurrentVideoFormat := m_CurrentVideoFormat st;
     m_Channels := m_Channels st; m_BitsPerPixel := m_BitsPerPixel st;
     m_MaxBitDepth := m_MaxBitDepth st;
     ResolutionIndex := ResolutionIndex st; PrimaryCCD := PrimaryCCD st;
     streaming := streaming st |}.

Definition set_ExposureEnd (v : timeval) (st : ToupBase) : ToupBase :=
  {| connected := connected st; InExposure := InExposure st;
     ExposureRequest := ExposureRequest st; ExposureEnd := v;
     m_CurrentTriggerMode := m_CurrentTriggerMode st;
     m_CanSnap := m_CanSnap st; m_CaptureTimeout := m_CaptureTimeout st;
     m_CaptureTimeoutCounter := m_CaptureTimeoutCounter st;
     m_TimeoutRetries := m_TimeoutRetries st;
     m_DownloadEstimation := m_DownloadEstimation st;
     TimeoutFactor := TimeoutFactor st; m_MonoCamera := m_MonoCamera st;
     m_CurrentVideoFormat := m_CurrentVideoFormat st;
     m_Channels := m_Channels st; m_BitsPerPixel := m_BitsPerPixel st;
     m_MaxBitDepth := m_MaxBitDepth st;
     ResolutionIndex := ResolutionIndex st; PrimaryCCD := PrimaryCCD st;
     streaming := streaming st |}.

Definition set_m_CurrentTriggerMode (v : TriggerMode) (st : ToupBase) : ToupBase :=
  {| connected := connected st; InExposure := InExposure st;
     ExposureRequest := ExposureRequest st; ExposureEnd := ExposureEnd st;
     m_CurrentTriggerMode := v; m_CanSnap := m_CanSnap st;
     m_CaptureTimeout := m_CaptureTimeout st;
     m_CaptureTimeoutCounter := m_CaptureTimeoutCounter st;
     m_TimeoutRetries := m_TimeoutRetries st;
     m_DownloadEstimation := m_DownloadEstimation st;
     TimeoutFactor := TimeoutFactor st; m_MonoCamera := m_MonoCamera st;
     m_CurrentVideoFormat := m_CurrentVideoFormat st;
     m_Channels := m_Channels st; m_BitsPerPixel := m_BitsPerPixel st;
     m_MaxBitDepth := m_MaxBitDepth st;
     ResolutionIndex := ResolutionIndex st; PrimaryCCD := PrimaryCCD st;
     streaming := streaming st |}.

Definition set_m_CanSnap (v : bool) (st : ToupBase) : ToupBase :=
  {| connected := connected st; InExposure := InExposure st;
     ExposureRequest := ExposureRequest st; ExposureEnd := ExposureEnd st;
     m_CurrentTriggerMode := m_CurrentTriggerMode st; m_CanSnap := v;
     m_CaptureTimeout := m_CaptureTimeout st;
     m_CaptureTimeoutCounter := m_CaptureTimeoutCounter st;
     m_TimeoutRetries := m_TimeoutRetries st;
     m_DownloadEstimation := m_DownloadEstimation st;
     TimeoutFactor := TimeoutFactor st; m_MonoCamera := m_MonoCamera st;
     m_CurrentVideoFormat := m_CurrentVideoFormat st;
     m_Channels := m_Channels st; m_BitsPerPixel := m_BitsPerPixel st;
     m_MaxBitDepth := m_MaxBitDepth st;
     ResolutionIndex := ResolutionIndex st; PrimaryCCD := PrimaryCCD st;
     streaming := streaming st |}.

Definition set_m_CaptureTimeout (v : option Q) (st : ToupBase) : ToupBase :=
  {| connected := connected st; InExposure := InExposure st;
     ExposureRequest := ExposureRequest st; ExposureEnd := ExposureEnd st;
     m_CurrentTriggerMode := m_CurrentTriggerMode st;
     m_CanSnap := m_CanSnap st; m_CaptureTimeout := v;
     m_CaptureTimeoutCounter := m_CaptureTimeoutCounter st;
     m_TimeoutRetries := m_TimeoutRetries st;
     m_DownloadEstimation := m_DownloadEstimation st;
     TimeoutFactor := TimeoutFactor st; m_MonoCamera := m_MonoCamera st;
     m_CurrentVideoFormat := m_CurrentVideoFormat st;
     m_Channels := m_Channels st; m_BitsPerPixel := m_BitsPerPixel st;
     m_MaxBitDepth := m_MaxBitDepth st;
     ResolutionIndex := ResolutionIndex st; PrimaryCCD := PrimaryCCD st;
     streaming := streaming st |}.

Definition set_m_CaptureTimeoutCounter (v : Z) (st : ToupBase) : ToupBase :=
  {| connected := connected st; InExposure := InExposure st;
     ExposureRequest := ExposureRequest st; ExposureEnd := ExposureEnd st;
     m_CurrentTriggerMode := m_CurrentTriggerMode st;
     m_CanSnap := m_CanSnap st; m_CaptureTimeout := m_CaptureTimeout st;
     m_CaptureTimeoutCounter := v; m_TimeoutRetries := m_TimeoutRetries st;
     m_DownloadEstimation := m_DownloadEstimation st;
     TimeoutFactor := TimeoutFactor st; m_MonoCamera := m_MonoCamera st;
     m_CurrentVideoFormat := m_CurrentVideoFormat st;
     m_Channels := m_Channels st; m_BitsPerPixel := m_BitsPerPixel st;
     m_MaxBitDepth := m_MaxBitDepth st;
     ResolutionIndex := ResolutionIndex st; PrimaryCCD := PrimaryCCD st;
     streaming := streaming st |}.

Definition set_m_TimeoutRetries (v : Z) (st : ToupBase) : ToupBase :=
  {| connected := connected st; InExposure := InExposure st;
     ExposureRequest := ExposureRequest st; ExposureEnd := ExposureEnd st;
     m_CurrentTriggerMode := m_CurrentTriggerMode st;
     m_CanSnap := m_CanSnap st; m_CaptureTimeout := m_CaptureTimeout st;
     m_CaptureTimeoutCounter := m_CaptureTimeoutCounter st;
     m_TimeoutRetries := v; m_DownloadEstimation := m_DownloadEstimation st;
     TimeoutFactor := TimeoutFactor st; m_MonoCamera := m_MonoCamera st;
     m_CurrentVideoFormat := m_CurrentVideoFormat st;
     m_Channels := m_Channels st; m_BitsPerPixel := m_BitsPerPixel st;
     m_MaxBitDepth := m_MaxBitDepth st;
     ResolutionIndex := ResolutionIndex st; PrimaryCCD := PrimaryCCD st;
     streaming := streaming st |}.

Definition set_m_DownloadEstimation (v : Q) (st : ToupBase) : ToupBase :=
  {| connected := connected st; InExposure := InExposure st;
     ExposureRequest := ExposureRequest st; ExposureEnd := ExposureEnd st;
     m_CurrentTriggerMode := m_CurrentTriggerMode st;
     m_CanSnap := m_CanSnap st; m_CaptureTimeout := m_CaptureTimeout st;
     m_CaptureTimeoutCounter := m_CaptureTimeoutCounter st;
     m_TimeoutRetries := m_TimeoutRetries st; m_DownloadEstimation := v;
     TimeoutFactor := TimeoutFactor st; m_MonoCamera := m_MonoCamera st;
     m_CurrentVideoFormat := m_CurrentVideoFormat st;
     m_Channels := m_Channels st; m_BitsPerPixel := m_BitsPerPixel st;
     m_MaxBitDepth := m_MaxBitDepth st;
     ResolutionIndex := ResolutionIndex st; PrimaryCCD := PrimaryCCD st;
     streaming := streaming st |}.

Definition set_PrimaryCCD (v : CCDChip) (st : ToupBase) : ToupBase :=
  {| connected := connected st; InExposure := InExposure st;
     ExposureRequest := ExposureRequest st; ExposureEnd := ExposureEnd st;
     m_CurrentTriggerMode := m_CurrentTriggerMode st;
     m_CanSnap := m_CanSnap st; m_CaptureTimeout := m_CaptureTimeout st;
     m_CaptureTimeoutCounter := m_CaptureTimeoutCounter st;
     m_TimeoutRetries := m_TimeoutRetries st;
     m_DownloadEstimation := m_DownloadEstimation st;
     TimeoutFactor := TimeoutFactor st; m_MonoCamera := m_MonoCamera st;
     m_CurrentVideoFormat := m_CurrentVideoFormat st;
     m_Channels := m_Channels st; m_BitsPerPixel := m_BitsPerPixel st;
     m_MaxBitDepth := m_MaxBitDepth st;
     ResolutionIndex := ResolutionIndex st; PrimaryCCD := v;
     streaming := streaming st |}.

(** What leaves the driver: vendor SDK calls, signals to the framework and
    log lines (debug lines are left out). *)
Inductive Event :=
| put_ExpoTime (uSecs : Z)
| put_Option_TRIGGER (v : Z)
| Snap (res : Z)
| Trigger (n : Z)
| put_Roi (x y w h : Z)
| PullImageV2 (bits : Z)
| PullStillImageV2 (bits : Z)
| Flush
| setExposureDuration (d : Q)
| setExposureLeft (d : Q)
| setExposureFailed
| ExposureComplete
| Streamer_newFrame (frame : option (list byte)) (size : Z)
| Streamer_setSize (w h : Z)
| LOG_ERROR (msg : string)
| LOG_WARN (msg : string)
| LOG_INFO (msg : string).

Abbreviation Fn := (Drv ToupBase Event).

(** [INDI::Timer::start] and [stop] on [m_CaptureTimeout]. *)
Definition m_CaptureTimeout_start (ms : Q) : Fn unit :=
  modify (set_m_CaptureTimeout (Some ms)).

Definition m_CaptureTimeout_stop : Fn unit :=
  modify (set_m_CaptureTimeout None).

(** The timeout window both [StartExposure] and the handler compute. *)
Definition window (duration : Q) (st : ToupBase) : Q :=
  (duration * 1000 + m_DownloadEstimation st * TimeoutFactor st)%Q.

Definition VERBOSE_EXPOSURE : Q := 3%Q.

(** [ToupBase::StartExposure]. [current_time] is the clock, the [rc_]
    arguments are the statuses of the SDK calls the function may make. *)
Definition StartExposure (duration : Q) (current_time : timeval)
    (rc_expo rc_trigmode rc_snap rc_trigger : HRESULT) : Fn bool :=
  emit (setExposureDuration duration);;
  let uSecs := to_uint32 (Qtrunc (duration * 1000000)) in
  (* Only update exposure when necessary *)
  req ← reads ExposureRequest;
  expo_ok ← ((if negb (Qeq_bool req duration) then
               modify (set_ExposureRequest duration);;
               emit (put_ExpoTime uSecs);;
               if FAILED rc_expo
               then emit (LOG_ERROR "Failed to set exposure time.");; mret false
               else mret true
             else mret true) : Fn bool);
  if negb expo_ok then mret false else
  let exposure_time :=
    {| tv_sec := uSecs `quot` 1000000; tv_usec := uSecs `rem` 1000000 |} in
  modify (set_ExposureEnd (timeradd current_time exposure_time));;
  req ← reads ExposureRequest;
  when (Qlt_bool VERBOSE_EXPOSURE req) (emit (LOG_INFO "Taking a frame..."));;
  modify (set_InExposure true);;
  mode ← reads m_CurrentTriggerMode;
  when (match mode with TRIGGER_SOFTWARE => false | _ => true end)
    (emit (put_Option_TRIGGER 1);;
     when (FAILED rc_trigmode)
       (emit (LOG_ERROR "Failed to set software trigger mode."));;
     modify (set_m_CurrentTriggerMode TRIGGER_SOFTWARE));;
  (* Snap still image *)
  canSnap ← reads m_CanSnap;
  res ← reads ResolutionIndex;
  capturedStarted ← ((if (canSnap : bool) then
                       emit (Snap res);;
                       if SUCCEEDED rc_snap then mret true
                       else
                         emit (LOG_WARN "Failed to snap exposure. Switching to regular exposure...");;
                         modify (set_m_CanSnap false);;
                         mret false
                     else mret false) : Fn bool);
  (* Trigger an exposure *)
  trigger_ok ← ((if negb capturedStarted then
                  emit (Trigger 1);;
                  if FAILED rc_trigger
                  then emit (LOG_ERROR "Failed to trigger exposure.");; mret false
                  else mret true
                else mret true) : Fn bool);
  if negb trigger_ok then mret false else
  (* Timeout 500ms after expected duration *)
  w ← reads (window duration);
  m_CaptureTimeout_start w;;
  mret true.

(** [ToupBase::AbortExposure]. *)
Definition AbortExposure : Fn bool :=
  emit (Trigger 0);;
  modify (set_InExposure false);;
  modify (set_m_TimeoutRetries 0);;
  modify (set_m_CaptureTimeoutCounter 0);;
  m_CaptureTimeout_stop;;
  mret true.

(** [ToupBase::captureTimeoutHandler]. *)
Definition captureTimeoutHandler (rc_snap rc_trigger : HRESULT) : Fn unit :=
  conn ← reads connected;
  if negb conn then mret tt else
  modify (fun st => set_m_CaptureTimeoutCounter (m_CaptureTimeoutCounter st + 1) st);;
  counter ← reads m_CaptureTimeoutCounter;
  if 3 <=? counter then
    modify (set_m_CaptureTimeoutCounter 0);;
    emit (LOG_ERROR "Camera timed out multiple times. Exposure failed.");;
    emit setExposureFailed
  else
  (* Snap still image *)
  canSnap ← reads m_CanSnap;
  res ← reads ResolutionIndex;
  snap_failed ← ((if (canSnap : bool) then emit (Snap res);; mret (FAILED rc_snap)
                  else mret false) : Fn bool);
  if (snap_failed : bool) then
    emit (LOG_ERROR "Failed to snap exposure.")
  else
    (* Trigger an exposure *)
    emit (Trigger 1);;
    if FAILED rc_trigger then
      emit (LOG_ERROR "Failed to trigger exposure.")
    else
      req ← reads ExposureRequest;
      w ← reads (window req);
      m_CaptureTimeout_start w.

(** The single-shot [INDI::Timer]: it delivers a timeout only while it is
    armed, and it is no longer armed when its callback runs. *)
Definition m_CaptureTimeout_timeout (rc_snap rc_trigger : HRESULT)
    (st : ToupBase) : option (unit * ToupBase * list Event) :=
  match m_CaptureTimeout st with
  | None => None
  | Some _ =>
      Some (captureTimeoutHandler rc_snap rc_trigger
              (set_m_CaptureTimeout None st))
  end.

(** [z -= (z % 2)]; [%] on [int] truncates towards zero: [Z.rem]. *)
Definition make_even (z : Z) : Z := z - z `rem` 2.

(** [e] is [z] rounded down to the nearest even number: the greatest even
    number that is not above [z]. *)
Definition rounded_down_even (z e : Z) : Prop :=
  Z.even e = true /\ e <= z /\
  forall e', Z.even e' = true -> e' <= z -> e' <= e.

(** [ToupBase::UpdateCCDFrame]. [/] on [int] truncates towards zero:
    [Z.quot]. *)
Definition UpdateCCDFrame (x y w h : Z) (rc_roi : HRESULT) : Fn bool :=
  (* Make sure all are even *)
  let x := make_even x in
  let y := make_even y in
  let w := make_even w in
  let h := make_even h in
  ccd ← reads PrimaryCCD;
  if XRes ccd <? w then
    emit (LOG_INFO "Error: invalid width requested");; mret false
  else if YRes ccd <? h then
    emit (LOG_INFO "Error: invalid height request");; mret false
  else
  emit (put_Roi x y w h);;
  if FAILED rc_roi then
    emit (LOG_ERROR "Error setting camera ROI");; mret false
  else
  (* Set UNBINNED coords *)
  modify (fun st => set_PrimaryCCD (setFrame x y w h (PrimaryCCD st)) st);;
  modify (set_m_DownloadEstimation 10000%Q);;
  (* Total bytes required for image buffer *)
  channels ← reads m_Channels;
  let nbuf := to_uint32 ((w * h * BPP ccd) `quot` 8 * channels) in
  modify (fun st => set_PrimaryCCD (setFrameBufferSize nbuf (PrimaryCCD st)) st);;
  (* Always set BINNED size *)
  emit (Streamer_setSize (w `quot` BinX ccd) (h `quot` BinY ccd));;
  mret true.

(** ** The frame callbacks *)

(** [ToupcamFrameInfoV2]; the callbacks only log it. *)
Record FrameInfoV2 := { width : Z; height : Z; flag : Z; timestamp : Z }.

(** The events of the pull-mode callback the driver tells apart. *)
Inductive SdkEvent :=
| EVENT_EXPOSURE | EVENT_TEMPTINT | EVENT_IMAGE | EVENT_STILLIMAGE
| EVENT_WBGAIN | EVENT_TRIGGERFAIL | EVENT_BLACK | EVENT_FFC | EVENT_DFC
| EVENT_ERROR | EVENT_DISCONNECTED | EVENT_NOFRAMETIMEOUT | EVENT_FACTORY
| EVENT_other (code : Z).

Section Callbacks.

(** The constant of [indi_toupbase.h]; the header is not part of the
    sources at hand, so the callbacks take its value as a parameter. *)
Variable MIN_DOWNLOAD_ESTIMATION : Q.

(** The block under [// Estimate download time], the same text in
    [pushCallback] and under [EVENT_IMAGE]. [curtime] is the clock. *)
Definition estimate_download_time (curtime : timeval) : Fn unit :=
  exposureEnd ← reads ExposureEnd;
  let diff := timersub curtime exposureEnd in
  modify (set_m_DownloadEstimation (millis diff));;
  est ← reads m_DownloadEstimation;
  when (Qlt_bool est MIN_DOWNLOAD_ESTIMATION)
    (modify (set_m_DownloadEstimation MIN_DOWNLOAD_ESTIMATION)).

(** [m_MonoCamera == false && m_CurrentVideoFormat == TC_VIDEO_COLOR_RGB]. *)
Definition rgb_still (st : ToupBase) : bool :=
  negb (m_MonoCamera st) && is_RGB (m_CurrentVideoFormat st).

(** The block that splits the scratch [buffer] into the three planes of the
    frame buffer, the same text in [pushCallback], under [EVENT_IMAGE] and
    under [EVENT_STILLIMAGE]. *)
Definition rgb_split (buffer : list byte) : Fn unit :=
  ccd ← reads PrimaryCCD;
  let image := FrameBuffer ccd in
  let width := to_uint32 (SubW ccd `quot` BinX ccd * (BPP ccd `quot` 8)) in
  let height := to_uint32 (SubH ccd `quot` BinY ccd * (BPP ccd `quot` 8)) in
  modify (fun st =>
    set_PrimaryCCD
      (setFrameBuffer (deinterleave width height buffer image) (PrimaryCCD st))
      st).

(** [ToupBase::pushCallback]. [pData] is [None] for a null pointer and
    otherwise holds the bytes behind the pointer. *)
Definition pushCallback (pData : option (list byte)) (pInfo : FrameInfoV2)
    (curtime : timeval) : Fn unit :=
  str ← reads streaming;
  inExposure ← reads InExposure;
  if (str : bool) then
    ccd ← reads PrimaryCCD;
    emit (Streamer_newFrame pData (FrameBufferSize ccd))
  else if (inExposure : bool) then
    modify (set_m_CaptureTimeoutCounter 0);;
    m_CaptureTimeout_stop;;
    estimate_download_time curtime;;
    modify (set_InExposure false);;
    emit (setExposureLeft 0);;
    ccd ← reads PrimaryCCD;
    rgb ← reads rgb_still;
    let size := if (rgb : bool) then to_uint32 (XRes ccd * YRes ccd * 3)
                else FrameBufferSize ccd in
    let buffer := if (rgb : bool) then malloc size else FrameBuffer ccd in
    match pData with
    | None =>
        emit (LOG_ERROR "Failed to push image.");;
        emit setExposureFailed
    | Some data =>
        let buffer := memcpy buffer data size in
        (if (rgb : bool) then rgb_split buffer
         else modify (fun st =>
                set_PrimaryCCD (setFrameBuffer buffer (PrimaryCCD st)) st));;
        emit ExposureComplete
    end
  else mret tt.

(** What [EVENT_IMAGE] and [EVENT_STILLIMAGE] do alike from
    [m_TimeoutRetries = 0] on; [pull] is [PullImageV2] for the first and
    [PullStillImageV2] for the second. [rc_pull] is the status of the pull
    and [pulled] the bytes the SDK stores at the buffer when it succeeds;
    [rc_flush] is the status of [Flush]. *)
Definition pull_frame (pull : Z -> Event) (rc_pull : HRESULT)
    (pulled : list byte) (rc_flush : HRESULT) : Fn unit :=
  modify (set_m_TimeoutRetries 0);;
  bpp ← reads m_BitsPerPixel;
  maxDepth ← reads m_MaxBitDepth;
  channels ← reads m_Channels;
  let captureBits := if bpp =? 8 then 8 else maxDepth in
  str ← reads streaming;
  inExposure ← reads InExposure;
  if (str : bool) then
    emit (pull (captureBits * channels));;
    when (SUCCEEDED rc_pull)
      (modify (fun st =>
         set_PrimaryCCD
           (setFrameBuffer
              (memcpy (FrameBuffer (PrimaryCCD st)) pulled (Z.of_nat (length pulled)))
              (PrimaryCCD st)) st);;
       ccd ← reads PrimaryCCD;
       emit (Streamer_newFrame (Some (FrameBuffer ccd)) (FrameBufferSize ccd)))
  else if (inExposure : bool) then
    modify (set_InExposure false);;
    emit (setExposureLeft 0);;
    ccd ← reads PrimaryCCD;
    rgb ← reads rgb_still;
    let buffer := if (rgb : bool) then malloc (XRes ccd * YRes ccd * 3)
                  else FrameBuffer ccd in
    emit (pull (captureBits * channels));;
    if FAILED rc_pull then
      emit (LOG_ERROR "Failed to pull image.");;
      emit setExposureFailed
    else
      let buffer := memcpy buffer pulled (Z.of_nat (length pulled)) in
      (if (rgb : bool) then rgb_split buffer
       else modify (fun st =>
              set_PrimaryCCD (setFrameBuffer buffer (PrimaryCCD st)) st));;
      emit ExposureComplete
  else
    emit Flush;;
    when (FAILED rc_flush) (emit (LOG_ERROR "Failed to flush image.")).

(** [ToupBase::eventPullCallBack]. *)
Definition eventPullCallBack (event : SdkEvent) (curtime : timeval)
    (rc_pull : HRESULT) (pulled : list byte) (rc_flush : HRESULT) : Fn unit :=
  match event with
  | EVENT_EXPOSURE =>
      modify (set_m_CaptureTimeoutCounter 0);;
      m_CaptureTimeout_stop
  | EVENT_IMAGE =>
      modify (set_m_CaptureTimeoutCounter 0);;
      m_CaptureTimeout_stop;;
      estimate_download_time curtime;;
      pull_frame PullImageV2 rc_pull pulled rc_flush
  | EVENT_STILLIMAGE =>
      modify (set_m_CaptureTimeoutCounter 0);;
      m_CaptureTimeout_stop;;
      pull_frame PullStillImageV2 rc_pull pulled rc_flush
  | EVENT_NOFRAMETIMEOUT =>
      emit setExposureFailed
  | _ => mret tt
  end.

End Callbacks.

(** ** Runs of the timeout machine *)

(** Consecutive timeouts of one exposure: each element of [rcs] holds the
    statuses of [Snap] and [Trigger] for one firing. The run ends early
    when the timer is not armed, for then nothing fires any more. *)
Fixpoint timeouts (rcs : list (HRESULT * HRESULT)) (st : ToupBase)
    : ToupBase * list Event :=
  match rcs with
  | [] => (st, [])
  | (rc_snap, rc_trigger) :: rcs' =>
      match m_CaptureTimeout_timeout rc_snap rc_trigger st with
      | None => (st, [])
      | Some r =>
          let '(st', tr') := timeouts rcs' (final r) in
          (st', trace r ++ tr')
      end
  end.

Definition is_capture_request (e : Event) : bool :=
  match e with Snap _ | Trigger 1 => true | _ => false end.

Definition is_setExposureFailed (e : Event) : bool :=
  match e with setExposureFailed => true | _ => false end.

Definition is_ExposureComplete (e : Event) : bool :=
  match e with ExposureComplete => true | _ => false end.

Definition is_Trigger_1 (e : Event) : bool :=
  match e with Trigger 1 => true | _ => false end.

Definition is_Snap (e : Event) : bool :=
  match e with Snap _ => true | _ => false end.

(** How often a trace holds an event of a kind. *)
Definition count (p : Event -> bool) (tr : list Event) : nat :=
  length (List.filter p tr).

(** ** Vocabulary of the download estimate *)

(** Callback time minus exposure-end time, in milliseconds. *)
Definition elapsed_ms (curtime exposureEnd : timeval) : Q :=
  (millis curtime - millis exposureEnd)%Q.

(** The value the block under [// Estimate download time] leaves. *)
Definition floored_estimate (MIN_DOWNLOAD_ESTIMATION : Q)
    (curtime exposureEnd : timeval) : Q :=
  if Qlt_bool (millis (timersub curtime exposureEnd)) MIN_DOWNLOAD_ESTIMATION
  then MIN_DOWNLOAD_ESTIMATION
  else millis (timersub curtime exposureEnd).

Definition is_LOG_INFO (e : Event) : bool :=
  match e with LOG_INFO _ => true | _ => false end.

(** ** Sample states *)

(** A connected colour camera in 8-bit raw mode with a 4x2 sensor, idle;
    download estimate 5000 ms and timeout factor 1.2. *)
Definition idle_camera : ToupBase :=
  {| connected := true; InExposure := false;
     ExposureRequest := 0%Q; ExposureEnd := {| tv_sec := 0; tv_usec := 0 |};
     m_CurrentTriggerMode := TRIGGER_SOFTWARE;
     m_CanSnap := false; m_CaptureTimeout := None;
     m_CaptureTimeoutCounter := 0; m_TimeoutRetries := 0;
     m_DownloadEstimation := 5000%Q; TimeoutFactor := 1.2%Q;
     m_MonoCamera := false; m_CurrentVideoFormat := TC_VIDEO_COLOR_RAW;
     m_Channels := 1; m_BitsPerPixel := 8; m_MaxBitDepth := 12;
     ResolutionIndex := 0;
     PrimaryCCD :=
       {| XRes := 4; YRes := 2; SubX := 0; SubY := 0; SubW := 4; SubH := 2;
          BinX := 1; BinY := 1; BPP := 8;
          FrameBuffer := replicate 8 x00; FrameBufferSize := 8 |};
     streaming := false |}.

(** The same camera after [StartExposure(1.0)] at second 100, every SDK
    call accepted: the exposure ends at second 101. *)
Definition exposing : ToupBase :=
  final (StartExposure 1 {| tv_sec := 100; tv_usec := 0 |}
           S_OK S_OK S_OK S_OK idle_camera).

(** A colour camera in RGB mode with a 2x1 sensor, exposing; the exposure
    ends at second 101. *)
Definition rgb_exposing : ToupBase :=
  {| connected := true; InExposure := true;
     ExposureRequest := 1%Q; ExposureEnd := {| tv_sec := 101; tv_usec := 0 |};
     m_CurrentTriggerMode := TRIGGER_SOFTWARE;
     m_CanSnap := true; m_CaptureTimeout := Some 7000%Q;
     m_CaptureTimeoutCounter := 0; m_TimeoutRetries := 0;
     m_DownloadEstimation := 5000%Q; TimeoutFactor := 1.2%Q;
     m_MonoCamera := false; m_CurrentVideoFormat := TC_VIDEO_COLOR_RGB;
     m_Channels := 3; m_BitsPerPixel := 8; m_MaxBitDepth := 12;
     ResolutionIndex := 0;
     PrimaryCCD :=
       {| XRes := 2; YRes := 1; SubX := 0; SubY := 0; SubW := 2; SubH := 1;
          BinX := 1; BinY := 1; BPP := 8;
          FrameBuffer := replicate 6 x00; FrameBufferSize := 6 |};
     streaming := false |}.

End Capture.

(* ===================================================================== *)
(** * Raw formats: FourCC tags and the Bayer pattern                      *)
(* ===================================================================== *)

Module Bayer.
Import Ascii.

(** [static_cast<uint8_t>]. *)
Definition to_uint8 (z : Z) : Z := z mod 2 ^ 8.

(** [MAKEFOURCC(ch0, ch1, ch2, ch3)]: each character is cut to a byte,
    widened to [uint32_t], shifted to its place and or-ed in. *)
Definition MAKEFOURCC (ch0 ch1 ch2 ch3 : Z) : Z :=
  Z.lor
    (Z.lor
       (Z.lor (to_uint32 (to_uint8 ch0))
              (to_uint32 (Z.shiftl (to_uint32 (to_uint8 ch1)) 8)))
       (to_uint32 (Z.shiftl (to_uint32 (to_uint8 ch2)) 16)))
    (to_uint32 (Z.shiftl (to_uint32 (to_uint8 ch3)) 24)).

(** A character literal as the [char] value it denotes. *)
Definition char (c : ascii) : Z := Z.of_N (N_of_ascii c).

Definition FMT_GBRG : Z := MAKEFOURCC (char "G") (char "B") (char "R") (char "G").
Definition FMT_RGGB : Z := MAKEFOURCC (char "R") (char "G") (char "G") (char "B").
Definition FMT_BGGR : Z := MAKEFOURCC (char "B") (char "G") (char "G") (char "R").
Definition FMT_GRBG : Z := MAKEFOURCC (char "G") (char "R") (char "B") (char "G").
Definition FMT_YYYY : Z := MAKEFOURCC (char "Y") (char "Y") (char "Y") (char "Y").
Definition FMT_YUV411 : Z := MAKEFOURCC (char "Y") (char "4") (char "1") (char "1").
Definition FMT_YUV422 : Z := MAKEFOURCC (char "V") (char "U") (char "Y") (char "Y").
Definition FMT_YUV444 : Z := MAKEFOURCC (char "Y") (char "4") (char "4") (char "4").
Definition FMT_RGB888 : Z := MAKEFOURCC (char "R") (char "G") (char "B") (char "8").

(** The pixel formats of the INDI stream manager the driver names. *)
Inductive INDI_PIXEL_FORMAT :=
| INDI_MONO | INDI_RGB
| INDI_BAYER_RGGB | INDI_BAYER_GRBG | INDI_BAYER_GBRG | INDI_BAYER_BGGR.

(** The fields of [ToupBase] that [getBayerString] writes. *)
Record ToupBase := {
  m_RawBitsPerPixel : Z;
  m_CameraPixelFormat : INDI_PIXEL_FORMAT
}.

Inductive Event := get_RawFormat.

Abbreviation Fn := (Drv ToupBase Event).

(** [ToupBase::getBayerString]. [nFourCC] and [nBitDepth] are what
    [get_RawFormat] stores in the two locals (they start at 0). *)
Definition getBayerString (nFourCC nBitDepth : Z) : Fn string :=
  emit get_RawFormat;;
  (* 8, 10, 12, 14, or 16 *)
  let set fmt st :=
    {| m_RawBitsPerPixel := nBitDepth; m_CameraPixelFormat := fmt |} in
  if nFourCC =? FMT_GBRG then
    modify (set INDI_BAYER_GBRG);; mret "GBRG"%string
  else if nFourCC =? FMT_RGGB then
    modify (set INDI_BAYER_RGGB);; mret "RGGB"%string
  else if nFourCC =? FMT_BGGR then
    modify (set INDI_BAYER_BGGR);; mret "BGGR"%string
  else if nFourCC =? FMT_GRBG then
    modify (set INDI_BAYER_GRBG);; mret "GRBG"%string
  else
    modify (set INDI_BAYER_RGGB);; mret "RGGB"%string.

(** Byte [k] of a 32-bit tag. *)
Definition tag_byte (k : Z) (tag : Z) : Z :=
  Z.land (Z.shiftr tag (8 * k)) 255.

(** The tag four characters spell. *)
Definition tag_of_string (s : string) : option Z :=
  match s with
  | String a (String b (String c (String d EmptyString))) =>
      Some (MAKEFOURCC (char a) (char b) (char c) (char d))
  | _ => None
  end.

(** The name of a Bayer pixel format. *)
Definition pattern_of (f : INDI_PIXEL_FORMAT) : option string :=
  match f with
  | INDI_BAYER_RGGB => Some "RGGB"%string
  | INDI_BAYER_GRBG => Some "GRBG"%string
  | INDI_BAYER_GBRG => Some "GBRG"%string
  | INDI_BAYER_BGGR => Some "BGGR"%string
  | _ => None
  end.

End Bayer.

(* ===================================================================== *)
(** * The guide functions under the event loop                            *)
(* ===================================================================== *)

Module GuideLoop.
Import Guiding.

Definition axis_eqb (a b : INDI_EQ_AXIS) : bool :=
  match a, b with
  | AXIS_RA, AXIS_RA | AXIS_DE, AXIS_DE => true
  | _, _ => false
  end.

(** The axis a guide command works on, and the command itself. *)
Definition axis_of (dir : eGUIDEDIRECTION) : INDI_EQ_AXIS :=
  match dir with
  | TOUPBASE_NORTH | TOUPBASE_SOUTH => AXIS_DE
  | TOUPBASE_EAST | TOUPBASE_WEST => AXIS_RA
  end.

Definition Guide (dir : eGUIDEDIRECTION) (ms : Z) (rc : HRESULT) (tid : Z)
    : Fn IPState :=
  match dir with
  | TOUPBASE_NORTH => GuideNorth ms rc tid
  | TOUPBASE_SOUTH => GuideSouth ms rc tid
  | TOUPBASE_EAST => GuideEast ms rc tid
  | TOUPBASE_WEST => GuideWest ms rc tid
  end.

(** [ToupBase::TimerHelperNS] and [TimerHelperWE], the functions handed to
    [IEAddTimer]. *)
Definition TimerHelper (a : INDI_EQ_AXIS) : Fn unit :=
  match a with AXIS_DE => TimerNS | AXIS_RA => TimerWE end.

(** What reaches the guide functions: a guide command, the event loop
    calling back for timer [id] of an axis, and [Disconnect]. *)
Inductive Call :=
| Command (dir : eGUIDEDIRECTION) (ms : Z) (rc : HRESULT) (tid : Z)
| Fire (a : INDI_EQ_AXIS) (id : Z)
| Unplug.

(** The driver together with the one-shot timers the event loop holds for
    each of the two callbacks. *)
Record World := { driver : ToupBase; timers : INDI_EQ_AXIS -> list Z }.

Definition world0 : World := {| driver := initial; timers := fun _ => [] |}.

(** One call. The event loop calls back only for a timer it holds, and
    drops the timer when it does. *)
Definition step (w : World) (c : Call) : World * list Event :=
  match c with
  | Command dir ms rc tid =>
      let r := Guide dir ms rc tid (driver w) in
      ({| driver := final r;
          timers := fun b => live_timers b tid (trace r) (timers w b) |},
       trace r)
  | Fire a id =>
      if existsb (Z.eqb id) (timers w a) then
        let r := TimerHelper a (driver w) in
        ({| driver := final r;
            timers := fun b =>
              if axis_eqb b a then filter (fun x => x ≠ id) (timers w b)
              else timers w b |},
         trace r)
      else (w, [])
  | Unplug =>
      let r := Disconnect (driver w) in
      ({| driver := final r;
          timers := fun b => live_timers b 0 (trace r) (timers w b) |},
       trace r)
  end.

Fixpoint run (cs : list Call) (w : World) : World * list Event :=
  match cs with
  | [] => (w, [])
  | c :: cs' =>
      let '(w1, t1) := step w c in
      let '(w2, t2) := run cs' w1 in
      (w2, t1 ++ t2)
  end.

(** The identifier [IEAddTimer] hands out is not -1 and is not the one of
    a timer the event loop holds for the other callback. *)
Definition fresh (w : World) (c : Call) : bool :=
  match c with
  | Command dir _ _ tid =>
      negb (tid =? -1) &&
      negb (existsb (Z.eqb tid) (timers w (other (axis_of dir))))
  | _ => true
  end.

Fixpoint admissible (cs : list Call) (w : World) : bool :=
  match cs with
  | [] => true
  | c :: cs' => fresh w c && admissible cs' (step w c).1
  end.

Definition adds (a : INDI_EQ_AXIS) (e : Event) : bool :=
  match e with IEAddTimer _ a' => axis_eqb a a' | _ => false end.

Definition completes (a : INDI_EQ_AXIS) (e : Event) : bool :=
  match e with GuideComplete a' => axis_eqb a a' | _ => false end.

Definition is_usleep (e : Event) : bool :=
  match e with usleep _ => true | _ => false end.

Definition is_Close (e : Event) : bool :=
  match e with Close => true | _ => false end.

Definition count (p : Event -> bool) (tr : list Event) : nat :=
  length (List.filter p tr).

(** The driver and the event loop agree on what is pending. *)
Definition agree (w : World) : Prop :=
  (forall a, timers w a = pending a (driver w)) /\
  (NStimerID (driver w) <> -1 -> WEtimerID (driver w) <> -1 ->
   NStimerID (driver w) <> WEtimerID (driver w)).

End GuideLoop.

(* ===================================================================== *)
(** * Properties                                                          *)
(* ===================================================================== *)

(** ** Comparisons of doubles *)

Lemma Qlt_bool_iff (x y : Q) : Qlt_bool x y = true <-> (x < y)%Q.
Proof.
  unfold Qlt_bool. rewrite negb_true_iff, <- not_true_iff_false, Qle_bool_iff.
  split; [apply Qnot_le_lt | apply Qlt_not_le].
Qed.

Lemma Qlt_bool_false_iff (x y : Q) : Qlt_bool x y = false <-> (y <= x)%Q.
Proof.
  unfold Qlt_bool. rewrite negb_false_iff. apply Qle_bool_iff.
Qed.


(** ** Dual conversion gain *)

Section DualGainFacts.
Import DualGain.

Lemma is_off_iff (s : ISState) : is_off s = true <-> s = ISS_OFF.
Proof. destruct s; cbv; intuition congruence. Qed.

(** C4: [dualGainEnabled] holds exactly when the hardware has dual gain,
    the HCG/LCG ratio is above 1.0001 and the HDR member of the conversion
    gain switch is off; so it is false whenever the ratio is at most 1.0001
    or the mode is HDR, and true otherwise on hardware with dual gain. *)
Theorem dualGainEnabled_iff (st : ToupBase) :
  (dualGainEnabled st = true <->
     m_hasDualGain st = true /\
     (1.0001 < TC_HCG_LCG_RATIO st)%Q /\
     GainConversionS st GAIN_HDR <> ISS_ON) /\
  ((TC_HCG_LCG_RATIO st <= 1.0001)%Q \/ GainConversionS st GAIN_HDR = ISS_ON ->
     dualGainEnabled st = false) /\
  (m_hasDualGain st = true ->
   ~ ((TC_HCG_LCG_RATIO st <= 1.0001)%Q \/ GainConversionS st GAIN_HDR = ISS_ON) ->
     dualGainEnabled st = true).
Proof.
  assert (E : dualGainEnabled st = true <->
     m_hasDualGain st = true /\
     (1.0001 < TC_HCG_LCG_RATIO st)%Q /\
     GainConversionS st GAIN_HDR <> ISS_ON).
  { unfold dualGainEnabled.
    rewrite !andb_true_iff, Qlt_bool_iff, is_off_iff.
    destruct (GainConversionS st GAIN_HDR); intuition congruence. }
  split; [exact E|]. split.
  - intros H. apply not_true_iff_false. rewrite E.
    intros (_ & Hr & Hm). destruct H as [H|H]; [|contradiction].
    exact (Qlt_not_le _ _ Hr H).
  - intros Hd H. apply E. repeat split; [assumption| |tauto].
    apply Qnot_le_lt. tauto.
Qed.

(** On a camera with dual gain, the ratio 4.5 of [initProperties] and
    the HDR member off, dual gain is enabled; with the ratio at 1 it is
    not. *)
Lemma dualGainEnabled_iff_witness :
  let unity :=
    {| m_hasDualGain := true; TC_HCG_THRESHOLD := 900%Q;
       TC_HCG_LCG_RATIO := 1%Q; GainConversionS := fun _ => ISS_OFF;
       GainConversionSP_s := IPS_IDLE; m_NativeGain := 0%Q |} in
  (m_hasDualGain (initial true) = true /\
   ~ ((TC_HCG_LCG_RATIO (initial true) <= 1.0001)%Q \/
      GainConversionS (initial true) GAIN_HDR = ISS_ON) /\
   dualGainEnabled (initial true) = true) /\
  (((TC_HCG_LCG_RATIO unity <= 1.0001)%Q \/
    GainConversionS unity GAIN_HDR = ISS_ON) /\
   dualGainEnabled unity = false).
Proof.
  cbv zeta.
  set (unity :=
    {| m_hasDualGain := true; TC_HCG_THRESHOLD := 900%Q;
       TC_HCG_LCG_RATIO := 1%Q; GainConversionS := fun _ => ISS_OFF;
       GainConversionSP_s := IPS_IDLE; m_NativeGain := 0%Q |}).
  assert (H : ~ ((TC_HCG_LCG_RATIO (initial true) <= 1.0001)%Q \/
                 GainConversionS (initial true) GAIN_HDR = ISS_ON)).
  { intros [H|H]; [vm_compute in H; apply H; reflexivity | discriminate H]. }
  assert (G : (TC_HCG_LCG_RATIO unity <= 1.0001)%Q \/
              GainConversionS unity GAIN_HDR = ISS_ON)
    by (left; vm_compute; discriminate).
  exact (conj
    (conj eq_refl (conj H
       (proj2 (proj2 (dualGainEnabled_iff (initial true))) eq_refl H)))
    (conj G (proj1 (proj2 (dualGainEnabled_iff unity)) G))).
Defined.

(** The values the property test of the specification runs over. *)
Example dualGainEnabled_table :
  map (fun r =>
         map (fun hdr =>
                dualGainEnabled
                  {| m_hasDualGain := true; TC_HCG_THRESHOLD := 900%Q;
                     TC_HCG_LCG_RATIO := r;
                     GainConversionS := fun m =>
                       if GainMode_eqb m hdr then ISS_ON else ISS_OFF;
                     GainConversionSP_s := IPS_OK; m_NativeGain := 0%Q |})
             [GAIN_LOW; GAIN_HIGH; GAIN_HDR])
      [0.9; 1.0; 1.0001; 1; 2; 5]%Q =
  [ [false; false; false]; [false; false; false]; [false; false; false];
    [false; false; false]; [true; true; false]; [true; true; false] ].
Proof. reflexivity. Qed.



(** What one call of [setDualGainMode] does, by the case the source takes. *)
Lemma setDualGainMode_cases (st : ToupBase) (g : Q) :
  let r := setDualGainMode g st in
  let sw := GainConversionS st in
  let sw' := GainConversionS (final r) in
  (* which members are on afterwards *)
  (if Qle_bool (TC_HCG_THRESHOLD st) g && is_off (sw GAIN_HIGH)
   then forall k, sw' k = if GainMode_eqb k GAIN_HIGH then ISS_ON else ISS_OFF
   else if Qlt_bool g (TC_HCG_THRESHOLD st) && is_off (sw GAIN_LOW)
   then forall k, sw' k = if GainMode_eqb k GAIN_LOW then ISS_ON else ISS_OFF
   else forall k, sw' k = sw k) /\
  (* the value returned and recorded *)
  result r = (if is_on (sw' GAIN_HIGH)
              then (g / TC_HCG_LCG_RATIO st)%Q else g) /\
  m_NativeGain (final r) = result r.
Proof.
  cbv zeta. unfold setDualGainMode, IUResetSwitch, assign_switch. drv_unfold.
  destruct (Qle_bool (TC_HCG_THRESHOLD st) g && is_off (GainConversionS st GAIN_HIGH)).
  - cbn. repeat split.
  - destruct (Qlt_bool g (TC_HCG_THRESHOLD st) && is_off (GainConversionS st GAIN_LOW)).
    + cbn. repeat split.
    + cbn. destruct (is_on (GainConversionS st GAIN_HIGH)) eqn:E;
        cbn; rewrite ?E; repeat split.
Qed.




(** [setDualGainMode] keeps the one-of-many rule. *)
Lemma setDualGainMode_one_of_many (st : ToupBase) (g : Q) :
  one_of_many st -> one_of_many (final (setDualGainMode g st)).
Proof.
  intros W. destruct (setDualGainMode_cases st g) as (Hsw & _ & _).
  cbv zeta in Hsw.
  destruct (Qle_bool _ _ && _);
    [|destruct (Qlt_bool _ _ && _)];
    intros a b; rewrite !Hsw; try apply W;
    destruct a, b; cbn; congruence.
Qed.

End DualGainFacts.

(** ** Pulse guiding *)

Section GuidingFacts.
Import Guiding.

(** C8: on either axis, a guide pulse started while one is pending first
    signals guide-complete for the pending pulse and removes its timer, and
    only then issues the relay command of the new pulse; nothing else in the
    call completes a pulse, removes a timer or commands the relay. The event
    loop, which held the one pending timer of the axis, afterwards holds the
    timer of the new pulse if one was scheduled and none otherwise, so never
    two; the other axis is not touched. *)
Theorem guidePulse_completes_pending
    (a : INDI_EQ_AXIS) (st : ToupBase) (ms : Z) (dir : eGUIDEDIRECTION)
    (rc : HRESULT) (tid : Z) :
  timerID a st <> -1 ->
  let r := guidePulse a ms dir rc tid st in
  (exists rest,
     trace r = GuideComplete a :: IERmTimer (timerID a st)
                 :: ST4PlusGuide dir ms :: rest /\
     forallb (fun e => negb (is_GuideComplete e || is_IERmTimer e
                             || is_ST4PlusGuide e)) rest = true) /\
  live_timers a tid (trace r) [timerID a st] =
    match result r with IPS_BUSY => [tid] | _ => [] end /\
  (length (live_timers a tid (trace r) [timerID a st]) <= 1)%nat /\
  timerID a (final r) =
    match result r with IPS_BUSY => tid | _ => -1 end /\
  timerID (other a) (final r) = timerID (other a) st.
Proof.
  intros Hp r. subst r.
  destruct a; cbn [guidePulse timerID other] in *;
    unfold guidePulseNS, guidePulseWE, stopTimerNS, stopTimerWE; drv_unfold;
    apply Z.eqb_neq in Hp; rewrite Hp; cbn [negb];
    destruct (FAILED rc); [| destruct (ms <? 50) | | destruct (ms <? 50)];
    cbn; case_decide; try congruence; cbn;
    (split; [eexists; split; reflexivity|]); repeat split; lia.
Qed.

(** A pulse of 100 ms to the north while timer 7 is pending; the event
    loop hands out timer 8. *)
Lemma guidePulse_completes_pending_witness :
  timerID AXIS_DE (set_NStimerID 7 initial) <> -1 /\
  live_timers AXIS_DE 8
    (trace (guidePulse AXIS_DE 100 TOUPBASE_NORTH S_OK 8 (set_NStimerID 7 initial)))
    [7] = [8].
Proof.
  assert (H : timerID AXIS_DE (set_NStimerID 7 initial) <> -1)
    by (cbn; discriminate).
  exact (conj H (proj1 (proj2
    (guidePulse_completes_pending AXIS_DE (set_NStimerID 7 initial) 100
       TOUPBASE_NORTH S_OK 8 H)))).
Defined.

Example guidePulseNS_trace :
  trace (GuideNorth 100 S_OK 8 (set_NStimerID 7 initial)) =
  [GuideComplete AXIS_DE; IERmTimer 7; ST4PlusGuide TOUPBASE_NORTH 100;
   IEAddTimer 100 AXIS_DE].
Proof. reflexivity. Qed.

(** Without a pending pulse the call starts with the relay command. *)
Lemma guidePulse_idle (a : INDI_EQ_AXIS) (st : ToupBase) (ms : Z)
    (dir : eGUIDEDIRECTION) (rc : HRESULT) (tid : Z) :
  timerID a st = -1 ->
  exists rest, trace (guidePulse a ms dir rc tid st) = ST4PlusGuide dir ms :: rest.
Proof.
  intros Hp.
  destruct a; cbn [guidePulse timerID] in *;
    unfold guidePulseNS, guidePulseWE, stopTimerNS, stopTimerWE; drv_unfold;
    rewrite Hp; cbn;
    destruct (FAILED rc); [| destruct (ms <? 50) | | destruct (ms <? 50)];
    cbn; eexists; reflexivity.
Qed.

(** The event loop and the driver agree on the pending timer of an axis
    across a call, whatever the state before. *)
Lemma guidePulse_tracks (a : INDI_EQ_AXIS) (st : ToupBase) (ms : Z)
    (dir : eGUIDEDIRECTION) (rc : HRESULT) (tid : Z) :
  tid <> -1 ->
  let r := guidePulse a ms dir rc tid st in
  live_timers a tid (trace r) (pending a st) = pending a (final r).
Proof.
  intros Ht r. subst r. unfold pending.
  destruct a; cbn [guidePulse timerID] in *;
    unfold guidePulseNS, guidePulseWE, stopTimerNS, stopTimerWE; drv_unfold;
    destruct (_ =? -1) eqn:Hp; cbn [negb];
    destruct (FAILED rc); [| destruct (ms <? 50) | | destruct (ms <? 50)
                           | | destruct (ms <? 50) | | destruct (ms <? 50)];
    cbn; repeat case_decide; try congruence; cbn;
    apply Z.eqb_neq in Ht; rewrite ?Hp, ?Ht; reflexivity.
Qed.

End GuidingFacts.

(** ** Exposure: abort and timeout *)

Section CaptureFacts.
Import Capture.
#[local] Arguments timeradd : simpl never.
#[local] Arguments timersub : simpl never.
#[local] Arguments to_uint32 : simpl never.
#[local] Arguments Qtrunc : simpl never.
#[local] Arguments window : simpl never.
#[local] Arguments Qlt_bool : simpl never.
#[local] Arguments make_even : simpl never.
#[local] Arguments millis : simpl never.
#[local] Arguments memcpy : simpl never.
#[local] Arguments malloc : simpl never.
#[local] Arguments deinterleave : simpl never.

(** C6: from any state [AbortExposure] issues [Trigger(handle, 0)], which
    cancels the hardware trigger, and nothing else; it clears the
    in-exposure flag, sets the retry counter and the timeout counter to 0,
    stops the capture timeout timer, and returns true. *)
Theorem AbortExposure_spec (st : ToupBase) :
  let r := AbortExposure st in
  trace r = [Trigger 0] /\
  InExposure (final r) = false /\
  m_TimeoutRetries (final r) = 0 /\
  m_CaptureTimeoutCounter (final r) = 0 /\
  m_CaptureTimeout (final r) = None /\
  result r = true.
Proof.
  unfold AbortExposure, m_CaptureTimeout_stop. drv_unfold. cbn.
  repeat split.
Qed.

(** *** One firing of the timeout, case by case *)

Lemma captureTimeoutHandler_disconnected (st : ToupBase) (rc_snap rc_trigger : HRESULT) :
  connected st = false ->
  captureTimeoutHandler rc_snap rc_trigger st = (tt, st, []).
Proof.
  intros H. unfold captureTimeoutHandler. drv_unfold. now rewrite H.
Qed.

Lemma captureTimeoutHandler_exhausted (st : ToupBase) (rc_snap rc_trigger : HRESULT) :
  connected st = true ->
  3 <= m_CaptureTimeoutCounter st + 1 ->
  captureTimeoutHandler rc_snap rc_trigger st =
    (tt,
     set_m_CaptureTimeoutCounter 0
       (set_m_CaptureTimeoutCounter (m_CaptureTimeoutCounter st + 1) st),
     [LOG_ERROR "Camera timed out multiple times. Exposure failed.";
      setExposureFailed]).
Proof.
  intros H Hc. apply Z.leb_le in Hc.
  unfold captureTimeoutHandler. drv_unfold. rewrite H. cbn. now rewrite Hc.
Qed.

(** Below the limit: the requests made, and whether the timer is armed
    again, depend on the statuses of [Snap] and [Trigger]. *)
Lemma captureTimeoutHandler_retry (st : ToupBase) (rc_snap rc_trigger : HRESULT) :
  connected st = true ->
  m_CaptureTimeoutCounter st + 1 < 3 ->
  let st1 := set_m_CaptureTimeoutCounter (m_CaptureTimeoutCounter st + 1) st in
  captureTimeoutHandler rc_snap rc_trigger st =
    if m_CanSnap st && FAILED rc_snap then
      (tt, st1, [Snap (ResolutionIndex st); LOG_ERROR "Failed to snap exposure."])
    else if FAILED rc_trigger then
      (tt, st1,
       (if m_CanSnap st then [Snap (ResolutionIndex st)] else []) ++
       [Trigger 1; LOG_ERROR "Failed to trigger exposure."])
    else
      (tt, set_m_CaptureTimeout (Some (window (ExposureRequest st) st)) st1,
       (if m_CanSnap st then [Snap (ResolutionIndex st)] else []) ++
       [Trigger 1]).
Proof.
  intros H Hc. apply Z.leb_gt in Hc.
  unfold captureTimeoutHandler. drv_unfold. rewrite H. cbn. rewrite Hc. cbn.
  destruct (m_CanSnap st), (FAILED rc_snap), (FAILED rc_trigger); reflexivity.
Qed.

(** *** Runs of timeouts *)

Lemma count_app (p : Event -> bool) (a b : list Event) :
  count p (a ++ b) = (count p a + count p b)%nat.
Proof. unfold count. now rewrite List.filter_app, length_app. Qed.

Lemma timeouts_idle (rcs : list (HRESULT * HRESULT)) (st : ToupBase) :
  m_CaptureTimeout st = None -> timeouts rcs st = (st, []).
Proof.
  intros H. destruct rcs as [|[a b] rcs]; [reflexivity|].
  cbn. unfold m_CaptureTimeout_timeout. now rewrite H.
Qed.

Lemma timeouts_cons (rc_snap rc_trigger : HRESULT)
    (rcs : list (HRESULT * HRESULT)) (st : ToupBase) (ms : Q) :
  m_CaptureTimeout st = Some ms ->
  let r := captureTimeoutHandler rc_snap rc_trigger (set_m_CaptureTimeout None st) in
  timeouts ((rc_snap, rc_trigger) :: rcs) st =
    ((timeouts rcs (final r)).1, trace r ++ (timeouts rcs (final r)).2).
Proof.
  intros H. cbn. unfold m_CaptureTimeout_timeout. rewrite H.
  now destruct (timeouts rcs _).
Qed.

(** However the SDK answers and however long the timer keeps firing, a
    run that starts with the counter at [c] (between 0 and 2) issues at most
    [2 - c] snaps, at most [2 - c] triggers, and at most one failure
    signal. *)
Lemma timeouts_bounded (rcs : list (HRESULT * HRESULT)) :
  forall st : ToupBase,
    0 <= m_CaptureTimeoutCounter st <= 2 ->
    let tr := (timeouts rcs st).2 in
    (count is_Snap tr <= Z.to_nat (2 - m_CaptureTimeoutCounter st))%nat /\
    (count is_Trigger_1 tr <= Z.to_nat (2 - m_CaptureTimeoutCounter st))%nat /\
    (count is_setExposureFailed tr <= 1)%nat /\
    count is_ExposureComplete tr = 0%nat.
Proof.
  induction rcs as [|[rc_snap rc_trigger] rcs IH]; intros st Hc; cbv zeta.
  { cbn. repeat split; lia. }
  destruct (m_CaptureTimeout st) as [ms|] eqn:Ht;
    [|rewrite timeouts_idle by assumption; cbn; repeat split; lia].
  rewrite (timeouts_cons _ _ _ _ _ Ht). cbv zeta. cbn [snd].
  set (st0 := set_m_CaptureTimeout None st).
  assert (Hc0 : m_CaptureTimeoutCounter st0 = m_CaptureTimeoutCounter st) by reflexivity.
  assert (Ht0 : m_CaptureTimeout st0 = None) by reflexivity.
  clearbody st0. rewrite <- Hc0 in *. clear Hc0 Ht st ms.
  rewrite !count_app.
  destruct (connected st0) eqn:Hconn.
  2:{ rewrite captureTimeoutHandler_disconnected by assumption.
      cbn [final trace fst snd]. rewrite timeouts_idle by assumption.
      cbn. repeat split; lia. }
  destruct (Z_lt_le_dec (m_CaptureTimeoutCounter st0 + 1) 3) as [Hlt|Hge].
  2:{ rewrite captureTimeoutHandler_exhausted by assumption.
      cbn [final trace fst snd]. rewrite timeouts_idle by exact Ht0.
      cbn. repeat split; lia. }
  rewrite captureTimeoutHandler_retry by assumption. cbv zeta.
  destruct (m_CanSnap st0 && FAILED rc_snap) eqn:Hs;
    [|destruct (FAILED rc_trigger)]; cbn [final trace fst snd].
  - rewrite timeouts_idle by exact Ht0. cbn. repeat split; lia.
  - rewrite timeouts_idle by exact Ht0.
    destruct (m_CanSnap st0); cbn; repeat split; lia.
  - match goal with |- context [timeouts rcs ?s] =>
      specialize (IH s); cbv zeta in IH; cbn [m_CaptureTimeoutCounter set_m_CaptureTimeout set_m_CaptureTimeoutCounter] in IH;
      destruct IH as (I1 & I2 & I3 & I4); [lia|] end.
    destruct (m_CanSnap st0); cbn; repeat split; lia.
Qed.

(** *** [StartExposure] arms the timer with the window the handler uses *)

Lemma StartExposure_started (st : ToupBase) (duration : Q) (now : timeval)
    (rc_expo rc_trigmode rc_snap rc_trigger : HRESULT) :
  let r := StartExposure duration now rc_expo rc_trigmode rc_snap rc_trigger st in
  result r = true ->
  InExposure (final r) = true /\
  m_CaptureTimeout (final r) = Some (window duration st) /\
  (ExposureRequest (final r) == duration)%Q /\
  m_DownloadEstimation (final r) = m_DownloadEstimation st /\
  TimeoutFactor (final r) = TimeoutFactor st /\
  m_CaptureTimeoutCounter (final r) = m_CaptureTimeoutCounter st /\
  connected (final r) = connected st.
Proof.
  cbv zeta. unfold StartExposure. drv_unfold. cbn.
  destruct (Qeq_bool (ExposureRequest st) duration) eqn:Eq; cbn;
    [apply Qeq_bool_iff in Eq|];
    destruct (m_CurrentTriggerMode st); cbn;
    repeat case_if; intros; try discriminate; repeat split; try assumption;
    reflexivity.
Qed.

Lemma window_comp (d1 d2 : Q) (st : ToupBase) :
  (d1 == d2)%Q -> (window d1 st == window d2 st)%Q.
Proof. intros H. unfold window. now rewrite H. Qed.

(** The claim C1 as it is worded fails where the SDK rejects the new
    trigger: the counter is at 1, below 3, and the timer is not re-armed
    (nor is a failure signalled). *)
Lemma captureTimeoutHandler_trigger_rejected :
  option_map
    (fun r => (m_CaptureTimeoutCounter (final r), m_CaptureTimeout (final r), trace r))
    (m_CaptureTimeout_timeout S_OK E_FAIL exposing)
  = Some (1, None, [Trigger 1; LOG_ERROR "Failed to trigger exposure."]).
Proof. reflexivity. Qed.

(** C1, amended: on a connected driver each firing of the capture timeout
    increments the consecutive-timeout counter. When the counter reaches 3
    the driver emits exactly one exposure-failed signal, resets the counter
    to 0, and neither requests a capture nor arms the timer. When the
    counter stays below 3 the driver re-issues the snap/trigger and emits no
    failure signal; if the SDK accepts the request it arms the timer again
    with the window of [StartExposure] (requested duration in ms plus
    download estimate times timeout factor), and if the SDK rejects the snap
    or the trigger the timer stays idle. A run of timeouts of one exposure
    therefore issues at most two more snaps and two more triggers (three
    attempts with the one of [StartExposure]) and at most one failure
    signal. *)
Theorem captureTimeoutHandler_spec :
  (forall (st : ToupBase) (rc_snap rc_trigger : HRESULT),
     connected st = true ->
     let r := captureTimeoutHandler rc_snap rc_trigger st in
     let c := m_CaptureTimeoutCounter st + 1 in
     (3 <= c ->
        count is_setExposureFailed (trace r) = 1%nat /\
        count is_capture_request (trace r) = 0%nat /\
        m_CaptureTimeoutCounter (final r) = 0 /\
        m_CaptureTimeout (final r) = m_CaptureTimeout st) /\
     (c < 3 ->
        m_CaptureTimeoutCounter (final r) = c /\
        count is_setExposureFailed (trace r) = 0%nat /\
        (1 <= count is_capture_request (trace r))%nat /\
        (m_CanSnap st && FAILED rc_snap = false -> FAILED rc_trigger = false ->
           m_CaptureTimeout (final r) = Some (window (ExposureRequest st) st)) /\
        (m_CanSnap st && FAILED rc_snap = true \/ FAILED rc_trigger = true ->
           m_CaptureTimeout (final r) = m_CaptureTimeout st))) /\
  (forall (st : ToupBase) (duration : Q) (now : timeval)
          (rc_expo rc_trigmode rc_snap rc_trigger : HRESULT),
     let r := StartExposure duration now rc_expo rc_trigmode rc_snap rc_trigger st in
     result r = true ->
     m_CaptureTimeout (final r) = Some (window duration st) /\
     (window (ExposureRequest (final r)) (final r) == window duration st)%Q) /\
  (forall (rcs : list (HRESULT * HRESULT)) (st : ToupBase),
     0 <= m_CaptureTimeoutCounter st <= 2 ->
     let tr := (timeouts rcs st).2 in
     (count is_Snap tr <= 2)%nat /\
     (count is_Trigger_1 tr <= 2)%nat /\
     (count is_setExposureFailed tr <= 1)%nat).
Proof.
  split; [|split].
  - intros st rc_snap rc_trigger Hconn r c. subst r c. split; intros Hc.
    + rewrite captureTimeoutHandler_exhausted by assumption. now cbn.
    + rewrite captureTimeoutHandler_retry by assumption. cbv zeta.
      destruct (m_CanSnap st && FAILED rc_snap) eqn:Hs;
        [|destruct (FAILED rc_trigger) eqn:Hg];
        destruct (m_CanSnap st); cbn;
        repeat split; try lia; try reflexivity; try discriminate;
        intros; try discriminate; try reflexivity;
        repeat match goal with H : _ \/ _ |- _ => destruct H end;
        discriminate.
  - intros st duration now rc_expo rc_trigmode rc_snap rc_trigger r Hr.
    destruct (StartExposure_started st duration now rc_expo rc_trigmode
                rc_snap rc_trigger Hr) as (_ & Ht & Hreq & He & Hf & _).
    fold r in Ht, Hreq, He, Hf. split; [exact Ht|].
    rewrite (window_comp _ _ _ Hreq). unfold window. now rewrite He, Hf.
  - intros rcs st Hc tr.
    destruct (timeouts_bounded rcs st Hc) as (H1 & H2 & H3 & _).
    fold tr in H1, H2, H3. repeat split; lia.
Qed.

(** The sample exposure: its start arms the timer with 1000 + 5000 * 1.2
    ms; at the first timeout, the trigger accepted, the counter goes to 1
    and the timer is armed with the same window; at the third timeout the
    one failure signal is emitted; a run of five timeouts makes no more than
    two triggers. *)
Lemma captureTimeoutHandler_spec_witness :
  let ok := (S_OK, S_OK) in
  let second := (timeouts [ok; ok] exposing).1 in
  (connected exposing = true /\
   m_CaptureTimeoutCounter exposing + 1 < 3 /\
   m_CanSnap exposing && FAILED S_OK = false /\
   FAILED S_OK = false /\
   m_CaptureTimeout (final (captureTimeoutHandler S_OK S_OK exposing)) =
     Some (window (ExposureRequest exposing) exposing)) /\
  (connected second = true /\
   3 <= m_CaptureTimeoutCounter second + 1 /\
   count is_setExposureFailed
     (trace (captureTimeoutHandler S_OK S_OK second)) = 1%nat) /\
  (result (StartExposure 1 {| tv_sec := 100; tv_usec := 0 |}
             S_OK S_OK S_OK S_OK idle_camera) = true /\
   m_CaptureTimeout exposing = Some (window 1 idle_camera)) /\
  (0 <= m_CaptureTimeoutCounter exposing <= 2 /\
   (count is_Trigger_1 (timeouts [ok; ok; ok; ok; ok] exposing).2 <= 2)%nat).
Proof.
  cbv zeta.
  set (second := (timeouts [(S_OK, S_OK); (S_OK, S_OK)] exposing).1).
  assert (H1 : connected exposing = true) by reflexivity.
  assert (H2 : m_CaptureTimeoutCounter exposing + 1 < 3) by reflexivity.
  assert (H3 : m_CanSnap exposing && FAILED S_OK = false) by reflexivity.
  assert (H4 : FAILED S_OK = false) by reflexivity.
  assert (H5 : connected second = true) by reflexivity.
  assert (H6 : 3 <= m_CaptureTimeoutCounter second + 1)
    by (vm_compute; discriminate).
  assert (H7 : result (StartExposure 1 {| tv_sec := 100; tv_usec := 0 |}
                         S_OK S_OK S_OK S_OK idle_camera) = true)
    by reflexivity.
  assert (H8 : 0 <= m_CaptureTimeoutCounter exposing <= 2)
    by (split; vm_compute; discriminate).
  pose proof (proj1 captureTimeoutHandler_spec exposing S_OK S_OK H1) as A.
  pose proof (proj1 captureTimeoutHandler_spec second S_OK S_OK H5) as B.
  pose proof (proj1 (proj2 captureTimeoutHandler_spec) idle_camera 1%Q
                {| tv_sec := 100; tv_usec := 0 |} S_OK S_OK S_OK S_OK H7) as C.
  pose proof (proj2 (proj2 captureTimeoutHandler_spec)
                [(S_OK, S_OK); (S_OK, S_OK); (S_OK, S_OK); (S_OK, S_OK);
                 (S_OK, S_OK)] exposing H8) as D.
  exact (conj
    (conj H1 (conj H2 (conj H3 (conj H4
       (proj1 (proj2 (proj2 (proj2 (proj2 A H2)))) H3 H4)))))
    (conj (conj H5 (conj H6 (proj1 (proj1 B H6))))
    (conj (conj H7 (proj1 C))
          (conj H8 (proj1 (proj2 D)))))).
Defined.

(** The scenario of the specification: an exposure of 1.0 s and timeouts
    that keep coming. The third one yields the one failure signal; there is
    no completion signal, and no fourth timeout, since the timer is idle. *)
Example three_timeouts :
  let ok := (S_OK, S_OK) in
  let '(st, tr) := timeouts [ok; ok; ok; ok; ok] exposing in
  tr = [Trigger 1; Trigger 1;
        LOG_ERROR "Camera timed out multiple times. Exposure failed.";
        setExposureFailed] /\
  m_CaptureTimeout st = None /\
  m_CaptureTimeoutCounter st = 0 /\
  count is_ExposureComplete tr = 0%nat.
Proof. vm_compute. repeat split. Qed.

(** ** Exposure: a timeout after an abort *)

(** C5: [AbortExposure] stops the capture timeout timer. A timeout that
    was scheduled before the abort therefore finds the timer idle when it
    comes due and is not delivered: whatever late firings follow, the
    handler does not run, so no failure is signalled, the hardware is not
    snapped or triggered again and the timer is not armed again; the driver
    stays in the state the abort left it in. *)
Theorem AbortExposure_disarms_timeout (st : ToupBase)
    (rc_snap rc_trigger : HRESULT) (rcs : list (HRESULT * HRESULT)) :
  let st' := final (AbortExposure st) in
  let late := timeouts rcs st' in
  m_CaptureTimeout st' = None /\
  m_CaptureTimeout_timeout rc_snap rc_trigger st' = None /\
  late = (st', []) /\
  count is_setExposureFailed late.2 = 0%nat /\
  count is_capture_request late.2 = 0%nat /\
  m_CaptureTimeout late.1 = None.
Proof.
  cbv zeta. set (st' := final (AbortExposure st)).
  assert (Hidle : m_CaptureTimeout st' = None) by reflexivity.
  rewrite (timeouts_idle rcs st' Hidle).
  unfold m_CaptureTimeout_timeout. rewrite Hidle.
  repeat split.
Qed.

(** The sample exposure has its timer armed: a timeout that comes due is
    delivered and triggers the camera again. After an abort of the same
    exposure the timeouts that come due are not delivered. *)
Example timeout_before_and_after_abort :
  let ok := (S_OK, S_OK) in
  m_CaptureTimeout exposing = Some (1 * 1000 + 5000 * 1.2)%Q /\
  (timeouts [ok] exposing).2 = [Trigger 1] /\
  timeouts [ok; ok; ok] (final (AbortExposure exposing)) =
    (final (AbortExposure exposing), []).
Proof. repeat split. Qed.

(** ** The region of interest *)

Lemma make_even_quot (z : Z) : make_even z = 2 * (z `quot` 2).
Proof. unfold make_even. pose proof (Z.quot_rem' z 2). lia. Qed.

Lemma make_even_facts (z : Z) :
  Z.even (make_even z) = true /\
  Z.abs (make_even z) <= Z.abs z /\
  Z.abs z - Z.abs (make_even z) <= 1 /\
  (0 <= z -> make_even z <= z < make_even z + 2) /\
  (z <= 0 -> z <= make_even z < z + 2).
Proof.
  rewrite make_even_quot. split; [apply Z.even_mul|].
  pose proof (Z.quot_rem' z 2) as E.
  destruct (Z_le_gt_dec 0 z) as [Hz|Hz].
  - pose proof (Z.rem_bound_pos z 2 Hz ltac:(lia)). lia.
  - pose proof (Z.rem_bound_pos (- z) 2 ltac:(lia) ltac:(lia)).
    pose proof (Z.rem_opp_l' z 2). lia.
Qed.

Lemma make_even_rounds_down (z : Z) :
  0 <= z -> rounded_down_even z (make_even z) /\ 0 <= make_even z.
Proof.
  intros Hz. destruct (make_even_facts z) as (He & _ & _ & Hb & _).
  specialize (Hb Hz). rewrite make_even_quot in *.
  assert (H0 : 0 <= z `quot` 2) by (apply Z.quot_pos; lia).
  split; [|lia]. split; [exact He|]. split; [lia|].
  intros e' He' Hle.
  apply Z.even_spec in He' as [k ->]. lia.
Qed.

Lemma to_uint32_small (z : Z) : 0 <= z < 2 ^ 32 -> to_uint32 z = z.
Proof. intros H. unfold to_uint32. apply Z.mod_small. exact H. Qed.

(** C10: for a requested region of [int] values that are not negative,
    [UpdateCCDFrame] first rounds each of x, y, w, h down to the nearest
    even number. It returns false, with the driver state as it was, no
    region sent to the SDK and only a log line written, whenever the
    rounded width exceeds the X resolution of the sensor or the rounded
    height its Y resolution; whenever it returns false the driver state
    is as it was. When it returns true, the region sent to the SDK and
    stored as the frame of the chip is the rounded one. *)
Theorem UpdateCCDFrame_spec (st : ToupBase) (x y w h : Z) (rc_roi : HRESULT) :
  0 <= x <= INT_MAX -> 0 <= y <= INT_MAX ->
  0 <= w <= INT_MAX -> 0 <= h <= INT_MAX ->
  let r := UpdateCCDFrame x y w h rc_roi st in
  let x' := make_even x in
  let y' := make_even y in
  let w' := make_even w in
  let h' := make_even h in
  (rounded_down_even x x' /\ rounded_down_even y y' /\
   rounded_down_even w w' /\ rounded_down_even h h') /\
  (XRes (PrimaryCCD st) < w' \/ YRes (PrimaryCCD st) < h' ->
     result r = false /\ final r = st /\
     forallb is_LOG_INFO (trace r) = true) /\
  (result r = false -> final r = st) /\
  (result r = true ->
     trace r = [put_Roi x' y' w' h';
                Streamer_setSize (w' `quot` BinX (PrimaryCCD st))
                                 (h' `quot` BinY (PrimaryCCD st))] /\
     SubX (PrimaryCCD (final r)) = x' /\ SubY (PrimaryCCD (final r)) = y' /\
     SubW (PrimaryCCD (final r)) = w' /\ SubH (PrimaryCCD (final r)) = h').
Proof.
  intros Hx Hy Hw Hh. cbv zeta.
  destruct (make_even_rounds_down x (proj1 Hx)) as [Rx Nx].
  destruct (make_even_rounds_down y (proj1 Hy)) as [Ry Ny].
  destruct (make_even_rounds_down w (proj1 Hw)) as [Rw Nw].
  destruct (make_even_rounds_down h (proj1 Hh)) as [Rh Nh].
  assert (Ux : to_uint32 (make_even x) = make_even x)
    by (apply to_uint32_small; destruct Rx as (_ & ? & _); unfold INT_MAX in *; lia).
  assert (Uy : to_uint32 (make_even y) = make_even y)
    by (apply to_uint32_small; destruct Ry as (_ & ? & _); unfold INT_MAX in *; lia).
  assert (Uw : to_uint32 (make_even w) = make_even w)
    by (apply to_uint32_small; destruct Rw as (_ & ? & _); unfold INT_MAX in *; lia).
  assert (Uh : to_uint32 (make_even h) = make_even h)
    by (apply to_uint32_small; destruct Rh as (_ & ? & _); unfold INT_MAX in *; lia).
  split; [auto|]. split; [|split].
  - unfold UpdateCCDFrame. drv_unfold. cbn.
    destruct (XRes (PrimaryCCD st) <? make_even w) eqn:Ew; cbn;
      [intros _; repeat split|].
    destruct (YRes (PrimaryCCD st) <? make_even h) eqn:Eh; cbn;
      [intros _; repeat split|].
    apply Z.ltb_ge in Ew, Eh. lia.
  - unfold UpdateCCDFrame. drv_unfold. cbn.
    repeat case_if; intros; try discriminate; reflexivity.
  - unfold UpdateCCDFrame. drv_unfold. cbn.
    repeat case_if; intros; try discriminate; rewrite ?Ux, ?Uy, ?Uw, ?Uh;
      repeat split.
Qed.

(** Two requests on the sample camera (sensor 4x2): odd values that the
    SDK accepts, and a width of 7, rounded to 6, that exceeds the sensor. *)
Lemma UpdateCCDFrame_spec_witness :
  (0 <= 1 <= INT_MAX /\ 0 <= 3 <= INT_MAX /\
   result (UpdateCCDFrame 1 1 3 3 S_OK idle_camera) = true /\
   trace (UpdateCCDFrame 1 1 3 3 S_OK idle_camera) =
     [put_Roi 0 0 2 2; Streamer_setSize 2 2] /\
   SubW (PrimaryCCD (final (UpdateCCDFrame 1 1 3 3 S_OK idle_camera))) = 2) /\
  (0 <= 0 <= INT_MAX /\ 0 <= 7 <= INT_MAX /\ 0 <= 2 <= INT_MAX /\
   (XRes (PrimaryCCD idle_camera) < make_even 7 \/
    YRes (PrimaryCCD idle_camera) < make_even 2) /\
   result (UpdateCCDFrame 0 0 7 2 S_OK idle_camera) = false /\
   final (UpdateCCDFrame 0 0 7 2 S_OK idle_camera) = idle_camera).
Proof.
  assert (I0 : 0 <= 0 <= INT_MAX) by (unfold INT_MAX; lia).
  assert (I1 : 0 <= 1 <= INT_MAX) by (unfold INT_MAX; lia).
  assert (I2 : 0 <= 2 <= INT_MAX) by (unfold INT_MAX; lia).
  assert (I3 : 0 <= 3 <= INT_MAX) by (unfold INT_MAX; lia).
  assert (I7 : 0 <= 7 <= INT_MAX) by (unfold INT_MAX; lia).
  assert (H : result (UpdateCCDFrame 1 1 3 3 S_OK idle_camera) = true)
    by reflexivity.
  assert (G : XRes (PrimaryCCD idle_camera) < make_even 7 \/
              YRes (PrimaryCCD idle_camera) < make_even 2)
    by (left; reflexivity).
  pose proof (UpdateCCDFrame_spec idle_camera 1 1 3 3 S_OK I1 I1 I3 I3) as A.
  pose proof (UpdateCCDFrame_spec idle_camera 0 0 7 2 S_OK I0 I0 I7 I2) as B.
  exact (conj
    (conj I1 (conj I3 (conj H
       (conj (proj1 (proj2 (proj2 (proj2 A)) H))
             (proj1 (proj2 (proj2 (proj2 (proj2 (proj2 (proj2 A)) H)))))))))
    (conj I0 (conj I7 (conj I2 (conj G
       (conj (proj1 (proj1 (proj2 B) G))
             (proj1 (proj2 (proj1 (proj2 B) G))))))))).
Defined.

(** ** The push callback and a null pointer *)

(** The claim C7 as it is worded fails for input of zero size: a pointer
    that is not null with no data behind it (and a frame info of 0 x 0)
    completes the exposure and signals no failure. *)
Lemma pushCallback_zero_size_completes :
  trace (pushCallback 1000 (Some [])
           {| width := 0; height := 0; flag := 0; timestamp := 0 |}
           {| tv_sec := 101; tv_usec := 50000 |} exposing) =
    [setExposureLeft 0; ExposureComplete].
Proof. reflexivity. Qed.

(** [memcpy] from a source that holds the bytes asked for: these bytes
    replace the start of the destination. *)
Lemma memcpy_prefix (dst src : list byte) (n : Z) :
  n <= Z.of_nat (length src) ->
  memcpy dst src n =
    take (Z.to_nat n) src ++ drop (Z.to_nat n) dst.
Proof.
  intros H. unfold memcpy. rewrite take_app_le by lia. reflexivity.
Qed.

(** C7, amended: a push callback with a null data pointer, while an
    exposure is in flight and the driver is not streaming, marks the
    exposure failed at once: the trace holds the failure signal, no snap or
    trigger (no retry) and no exposure-complete signal, the chip with its
    frame buffer is as before, the exposure is over and the timer is idle.
    The null pointer is all the callback checks: with a pointer that is not
    null it ends the exposure and signals exposure-complete and no failure,
    whatever amount of data stands behind the pointer. From such a pointer
    it copies the size it expects: the size of the frame buffer, or in RGB
    mode three bytes for every pixel of the sensor. When the data holds
    that many bytes, they are the bytes the frame buffer starts with
    afterwards, and in RGB mode the bytes that are split into the colour
    planes of the frame buffer. *)
Theorem pushCallback_null_fails (MIN_DOWNLOAD_ESTIMATION : Q) (st : ToupBase)
    (pInfo : FrameInfoV2) (curtime : timeval) :
  streaming st = false ->
  InExposure st = true ->
  (let r := pushCallback MIN_DOWNLOAD_ESTIMATION None pInfo curtime st in
   trace r = [setExposureLeft 0; LOG_ERROR "Failed to push image.";
              setExposureFailed] /\
   PrimaryCCD (final r) = PrimaryCCD st /\
   InExposure (final r) = false /\
   m_CaptureTimeout (final r) = None /\
   m_CaptureTimeoutCounter (final r) = 0) /\
  (forall data : list byte,
     let r := pushCallback MIN_DOWNLOAD_ESTIMATION (Some data) pInfo curtime st in
     let ccd := PrimaryCCD st in
     trace r = [setExposureLeft 0; ExposureComplete] /\
     InExposure (final r) = false /\
     (rgb_still st = false ->
        let size := FrameBufferSize ccd in
        size <= Z.of_nat (length data) ->
        FrameBuffer (PrimaryCCD (final r)) =
          take (Z.to_nat size) data ++ drop (Z.to_nat size) (FrameBuffer ccd)) /\
     (rgb_still st = true ->
        let size := to_uint32 (XRes ccd * YRes ccd * 3) in
        let width := to_uint32 (SubW ccd `quot` BinX ccd * (BPP ccd `quot` 8)) in
        let height := to_uint32 (SubH ccd `quot` BinY ccd * (BPP ccd `quot` 8)) in
        size <= Z.of_nat (length data) ->
        FrameBuffer (PrimaryCCD (final r)) =
          deinterleave width height (take (Z.to_nat size) data)
            (FrameBuffer ccd))).
Proof.
  intros Hs He. cbv zeta.
  unfold pushCallback, estimate_download_time, rgb_split, m_CaptureTimeout_stop.
  drv_unfold. rewrite Hs, He. cbn.
  split; [repeat case_if; repeat split|].
  intros data. unfold rgb_still. cbn.
  destruct (negb (m_MonoCamera st) && is_RGB (m_CurrentVideoFormat st)) eqn:Ergb;
    repeat case_if; cbn; (split; [reflexivity|]); (split; [reflexivity|]);
    (split; [intros Hr|intros Hr]); try discriminate Hr; intros Hlen;
    try congruence.
  all: rewrite memcpy_prefix by exact Hlen.
  all: try reflexivity.
  all: unfold malloc; rewrite drop_replicate, Nat.sub_diag, app_nil_r;
    reflexivity.
Qed.

(** The sample exposure: a null pointer at 101.05 s, and a frame of eight
    bytes, the size of the frame buffer. *)
Lemma pushCallback_null_fails_witness :
  let pInfo := {| width := 4; height := 2; flag := 0; timestamp := 0 |} in
  let curtime := {| tv_sec := 101; tv_usec := 50000 |} in
  streaming exposing = false /\
  InExposure exposing = true /\
  trace (pushCallback 1000 None pInfo curtime exposing) =
    [setExposureLeft 0; LOG_ERROR "Failed to push image."; setExposureFailed] /\
  rgb_still exposing = false /\
  FrameBufferSize (PrimaryCCD exposing) <= Z.of_nat (length (replicate 8 x01)) /\
  FrameBuffer (PrimaryCCD (final
    (pushCallback 1000 (Some (replicate 8 x01)) pInfo curtime exposing))) =
    replicate 8 x01.
Proof.
  cbv zeta.
  assert (H1 : streaming exposing = false) by reflexivity.
  assert (H2 : InExposure exposing = true) by reflexivity.
  assert (H3 : rgb_still exposing = false) by reflexivity.
  assert (H4 : FrameBufferSize (PrimaryCCD exposing) <=
               Z.of_nat (length (replicate 8 x01)))
    by (vm_compute; discriminate).
  pose proof (pushCallback_null_fails 1000 exposing
       {| width := 4; height := 2; flag := 0; timestamp := 0 |}
       {| tv_sec := 101; tv_usec := 50000 |} H1 H2) as [N D].
  exact (conj H1 (conj H2 (conj (proj1 N) (conj H3 (conj H4
    (proj1 (proj2 (proj2 (D (replicate 8 x01)))) H3 H4)))))).
Defined.

(** ** The download estimate *)

(** [timersub] is the difference of the two points in time. *)
Lemma timersub_millis (a b : timeval) :
  (millis (timersub a b) == elapsed_ms a b)%Q.
Proof.
  unfold elapsed_ms, timersub, millis.
  destruct (tv_usec a - tv_usec b <? 0); cbn [tv_sec tv_usec];
    unfold Z.sub; rewrite ?inject_Z_plus, ?inject_Z_opp; field.
Qed.

Lemma floored_estimate_max (MIN_DOWNLOAD_ESTIMATION : Q)
    (curtime exposureEnd : timeval) :
  let e := floored_estimate MIN_DOWNLOAD_ESTIMATION curtime exposureEnd in
  (MIN_DOWNLOAD_ESTIMATION <= e)%Q /\
  (elapsed_ms curtime exposureEnd <= e)%Q /\
  ((e == MIN_DOWNLOAD_ESTIMATION)%Q \/ (e == elapsed_ms curtime exposureEnd)%Q).
Proof.
  cbv zeta. unfold floored_estimate.
  pose proof (timersub_millis curtime exposureEnd) as E.
  destruct (Qlt_bool _ _) eqn:H.
  - apply Qlt_bool_iff in H. rewrite <- E. repeat split.
    + apply Qle_refl.
    + now apply Qlt_le_weak.
    + left. reflexivity.
  - apply Qlt_bool_false_iff in H. rewrite <- E. repeat split.
    + exact H.
    + apply Qle_refl.
    + right. reflexivity.
Qed.

Lemma pushCallback_estimate (MIN_DOWNLOAD_ESTIMATION : Q) (st : ToupBase)
    (pData : option (list byte)) (pInfo : FrameInfoV2) (curtime : timeval) :
  let r := pushCallback MIN_DOWNLOAD_ESTIMATION pData pInfo curtime st in
  m_DownloadEstimation (final r) =
    if negb (streaming st) && InExposure st
    then floored_estimate MIN_DOWNLOAD_ESTIMATION curtime (ExposureEnd st)
    else m_DownloadEstimation st.
Proof.
  cbv zeta.
  unfold pushCallback, estimate_download_time, rgb_split, m_CaptureTimeout_stop,
    floored_estimate.
  drv_unfold.
  destruct (streaming st), (InExposure st); cbn; try reflexivity.
  destruct pData; repeat case_if; reflexivity.
Qed.

Lemma pushCallback_complete (MIN_DOWNLOAD_ESTIMATION : Q) (st : ToupBase)
    (pData : option (list byte)) (pInfo : FrameInfoV2) (curtime : timeval) :
  let r := pushCallback MIN_DOWNLOAD_ESTIMATION pData pInfo curtime st in
  count is_ExposureComplete (trace r) <> 0%nat ->
  streaming st = false /\ InExposure st = true /\ pData <> None.
Proof.
  cbv zeta.
  unfold pushCallback, estimate_download_time, rgb_split, m_CaptureTimeout_stop.
  drv_unfold.
  destruct (streaming st), (InExposure st); cbn; try congruence.
  destruct pData; repeat case_if; cbn; try congruence; intros; repeat split;
    congruence.
Qed.

Lemma eventPullCallBack_image_estimate (MIN_DOWNLOAD_ESTIMATION : Q)
    (st : ToupBase) (curtime : timeval) (rc_pull : HRESULT)
    (pulled : list byte) (rc_flush : HRESULT) :
  let r := eventPullCallBack MIN_DOWNLOAD_ESTIMATION EVENT_IMAGE curtime
             rc_pull pulled rc_flush st in
  m_DownloadEstimation (final r) =
    floored_estimate MIN_DOWNLOAD_ESTIMATION curtime (ExposureEnd st).
Proof.
  cbv zeta.
  unfold eventPullCallBack, pull_frame, estimate_download_time, rgb_split,
    m_CaptureTimeout_stop, floored_estimate.
  drv_unfold. cbn.
  repeat case_if; reflexivity.
Qed.

(** The claim C9 as it is worded fails in both directions. A push callback
    with a null pointer delivers no frame (it signals failure), yet it moves
    the estimate of the sample exposure from 5000 ms to the 2050 ms between
    the exposure end at 101 s and the callback at 103.05 s. And a still-image
    event at the same time delivers a frame (it signals completion) and
    leaves the estimate at 5000 ms. *)
Lemma download_estimate_not_only_on_delivery :
  let pInfo := {| width := 4; height := 2; flag := 0; timestamp := 0 |} in
  let curtime := {| tv_sec := 103; tv_usec := 50000 |} in
  let failed := pushCallback 1000 None pInfo curtime exposing in
  let still := eventPullCallBack 1000 EVENT_STILLIMAGE curtime S_OK
                 (replicate 8 x01) S_OK exposing in
  (m_DownloadEstimation exposing == 5000)%Q /\
  count is_ExposureComplete (trace failed) = 0%nat /\
  count is_setExposureFailed (trace failed) = 1%nat /\
  (m_DownloadEstimation (final failed) == 2050)%Q /\
  count is_ExposureComplete (trace still) = 1%nat /\
  (m_DownloadEstimation (final still) == 5000)%Q.
Proof. cbv zeta. repeat split. Qed.

(** C9, amended: the download estimate is recomputed by every push callback
    that arrives while an exposure is in flight and the driver is not
    streaming, whether or not it carries data, and by every image event,
    whether or not the pull succeeds; other push callbacks leave it alone.
    The new value is the time between the computed exposure end and the
    callback, or the configured minimum if that is larger. So after a frame
    is delivered through the push callback or the image event the estimate
    is at least the configured minimum. *)
Theorem download_estimate_spec (MIN_DOWNLOAD_ESTIMATION : Q) (st : ToupBase) :
  (forall (pData : option (list byte)) (pInfo : FrameInfoV2) (curtime : timeval),
     let r := pushCallback MIN_DOWNLOAD_ESTIMATION pData pInfo curtime st in
     let e := m_DownloadEstimation (final r) in
     (streaming st = false -> InExposure st = true ->
        (MIN_DOWNLOAD_ESTIMATION <= e)%Q /\
        (elapsed_ms curtime (ExposureEnd st) <= e)%Q /\
        ((e == MIN_DOWNLOAD_ESTIMATION)%Q \/
         (e == elapsed_ms curtime (ExposureEnd st))%Q)) /\
     (streaming st = true \/ InExposure st = false ->
        e = m_DownloadEstimation st) /\
     (count is_ExposureComplete (trace r) <> 0%nat ->
        (MIN_DOWNLOAD_ESTIMATION <= e)%Q)) /\
  (forall (curtime : timeval) (rc_pull : HRESULT) (pulled : list byte)
          (rc_flush : HRESULT),
     let r := eventPullCallBack MIN_DOWNLOAD_ESTIMATION EVENT_IMAGE curtime
                rc_pull pulled rc_flush st in
     let e := m_DownloadEstimation (final r) in
     (MIN_DOWNLOAD_ESTIMATION <= e)%Q /\
     (elapsed_ms curtime (ExposureEnd st) <= e)%Q /\
     ((e == MIN_DOWNLOAD_ESTIMATION)%Q \/
      (e == elapsed_ms curtime (ExposureEnd st))%Q)).
Proof.
  split.
  - intros pData pInfo curtime r e. subst e r.
    rewrite pushCallback_estimate.
    assert (A : streaming st = false -> InExposure st = true ->
              let e := if negb (streaming st) && InExposure st
                       then floored_estimate MIN_DOWNLOAD_ESTIMATION curtime (ExposureEnd st)
                       else m_DownloadEstimation st in
              (MIN_DOWNLOAD_ESTIMATION <= e)%Q /\
              (elapsed_ms curtime (ExposureEnd st) <= e)%Q /\
              ((e == MIN_DOWNLOAD_ESTIMATION)%Q \/
               (e == elapsed_ms curtime (ExposureEnd st))%Q)).
    { intros Hs He. rewrite Hs, He. apply floored_estimate_max. }
    split; [exact A|]. split.
    + intros [H|H]; rewrite H; [reflexivity|].
      now rewrite andb_false_r.
    + intros Hc.
      destruct (pushCallback_complete _ _ _ _ _ Hc) as (Hs & He & _).
      exact (proj1 (A Hs He)).
  - intros curtime rc_pull pulled rc_flush r e. subst e r.
    rewrite eventPullCallBack_image_estimate. apply floored_estimate_max.
Qed.

(** A frame pushed 50 ms after the end of the sample exposure (the scenario
    of the specification): the estimate becomes the minimum, 1000 ms. The
    same callback on the idle camera leaves the estimate alone. *)
Lemma download_estimate_spec_witness :
  let frame := Some (replicate 8 x01) in
  let pInfo := {| width := 4; height := 2; flag := 0; timestamp := 0 |} in
  let curtime := {| tv_sec := 101; tv_usec := 50000 |} in
  let r := pushCallback 1000 frame pInfo curtime exposing in
  let r' := pushCallback 1000 frame pInfo curtime idle_camera in
  (streaming exposing = false /\
   InExposure exposing = true /\
   trace r = [setExposureLeft 0; ExposureComplete] /\
   (1000 <= m_DownloadEstimation (final r))%Q) /\
  (count is_ExposureComplete (trace r) <> 0%nat /\
   (1000 <= m_DownloadEstimation (final r))%Q) /\
  ((streaming idle_camera = true \/ InExposure idle_camera = false) /\
   m_DownloadEstimation (final r') = m_DownloadEstimation idle_camera).
Proof.
  cbv zeta.
  assert (H1 : streaming exposing = false) by reflexivity.
  assert (H2 : InExposure exposing = true) by reflexivity.
  assert (H3 : count is_ExposureComplete
                 (trace (pushCallback 1000 (Some (replicate 8 x01))
                           {| width := 4; height := 2; flag := 0; timestamp := 0 |}
                           {| tv_sec := 101; tv_usec := 50000 |} exposing))
               <> 0%nat) by discriminate.
  assert (H4 : streaming idle_camera = true \/ InExposure idle_camera = false)
    by (right; reflexivity).
  pose proof (proj1 (download_estimate_spec 1000 exposing)
                (Some (replicate 8 x01))
                {| width := 4; height := 2; flag := 0; timestamp := 0 |}
                {| tv_sec := 101; tv_usec := 50000 |}) as A.
  pose proof (proj1 (download_estimate_spec 1000 idle_camera)
                (Some (replicate 8 x01))
                {| width := 4; height := 2; flag := 0; timestamp := 0 |}
                {| tv_sec := 101; tv_usec := 50000 |}) as B.
  exact (conj (conj H1 (conj H2 (conj eq_refl (proj1 (proj1 A H1 H2)))))
        (conj (conj H3 (proj2 (proj2 A) H3))
              (conj H4 (proj1 (proj2 B) H4)))).
Defined.

End CaptureFacts.

(** ** The RGB plane split *)

Section PlaneSplit.
Import Capture.

(** The loop stops by its own test before the fuel of [deinterleave] runs
    out: more fuel changes nothing. *)
Lemma rgb_loop_fuel (totalSize : Z) (buffer : list byte) (fuel1 : nat) :
  forall (fuel2 : nat) (i subR subG subB : Z) (image : list byte),
    totalSize - i < Z.of_nat fuel1 ->
    (fuel1 <= fuel2)%nat ->
    rgb_loop fuel1 totalSize i buffer subR subG subB image =
    rgb_loop fuel2 totalSize i buffer subR subG subB image.
Proof.
  induction fuel1 as [|fuel1 IH]; intros fuel2 i subR subG subB image Hf Hle.
  - destruct fuel2; [reflexivity|]. cbn.
    destruct (i <=? totalSize) eqn:E; [apply Z.leb_le in E; lia|reflexivity].
  - destruct fuel2 as [|fuel2]; [lia|]. cbn.
    destruct (i <=? totalSize); [|reflexivity].
    apply IH; lia.
Qed.

(** The two callbacks on sample RGB frames of 2x1 pixels: the frame buffer
    ends up planar. *)
Example pushCallback_rgb :
  let r := pushCallback 1000 (Some ["1"; "2"; "3"; "4"; "5"; "6"]%byte)
             {| width := 2; height := 1; flag := 0; timestamp := 0 |}
             {| tv_sec := 101; tv_usec := 50000 |} rgb_exposing in
  FrameBuffer (PrimaryCCD (final r)) = ["1"; "4"; "2"; "5"; "3"; "6"]%byte /\
  trace r = [setExposureLeft 0; ExposureComplete].
Proof. split; reflexivity. Qed.

Example eventPullCallBack_rgb :
  let r := eventPullCallBack 1000 EVENT_STILLIMAGE
             {| tv_sec := 101; tv_usec := 50000 |}
             S_OK ["1"; "2"; "3"; "4"; "5"; "6"]%byte S_OK rgb_exposing in
  FrameBuffer (PrimaryCCD (final r)) = ["1"; "4"; "2"; "5"; "3"; "6"]%byte /\
  trace r = [setExposureLeft 0; PullStillImageV2 24; ExposureComplete].
Proof. split; reflexivity. Qed.

(** What the loop leaves at each offset of the image, for a run that
    starts at pixel [k] of [n]. *)
Lemma rgb_loop_lookup (buffer : list byte) (n : Z) (fuel : nat) :
  forall (k : Z) (image : list byte),
    0 <= k <= n ->
    n - k <= Z.of_nat fuel ->
    3 * n <= Z.of_nat (length image) ->
    let image' := rgb_loop fuel (3 * n - 3) (3 * k) buffer
                    k (n + k) (2 * n + k) image in
    length image' = length image /\
    forall p : nat,
      image' !! p =
        if decide (k <= Z.of_nat p < n)
        then Some (at_index buffer (3 * Z.of_nat p))
        else if decide (n + k <= Z.of_nat p < 2 * n)
        then Some (at_index buffer (3 * (Z.of_nat p - n) + 1))
        else if decide (2 * n + k <= Z.of_nat p < 3 * n)
        then Some (at_index buffer (3 * (Z.of_nat p - 2 * n) + 2))
        else image !! p.
Proof.
  induction fuel as [|fuel IH]; intros k image Hk Hf Hl; cbv zeta.
  - cbn. split; [reflexivity|]. intros p.
    repeat case_decide; try lia; reflexivity.
  - cbn [rgb_loop]. destruct (3 * k <=? 3 * n - 3) eqn:Hg.
    + apply Z.leb_le in Hg.
      replace (3 * k + 3) with (3 * (k + 1)) by lia.
      replace (n + k + 1) with (n + (k + 1)) by lia.
      replace (2 * n + k + 1) with (2 * n + (k + 1)) by lia.
      unfold store.
      set (image3 := <[Z.to_nat (2 * n + k) := _]> _).
      assert (Hl3 : length image3 = length image)
        by (unfold image3; now rewrite !length_insert).
      destruct (IH (k + 1) image3) as [IHl IHp]; [lia|lia|lia|].
      split; [now rewrite IHl|].
      intros p. rewrite IHp. unfold image3.
      rewrite !list_lookup_insert, !length_insert.
      repeat case_decide; try lia; try reflexivity;
        repeat f_equal; lia.
    + apply Z.leb_gt in Hg. split; [reflexivity|]. intros p.
      repeat case_decide; try lia; reflexivity.
Qed.

Lemma deinterleave_lookup (w h : Z) (buffer image : list byte) :
  frame_fits w h ->
  3 * (w * h) <= Z.of_nat (length image) ->
  let n := w * h in
  let image' := deinterleave w h buffer image in
  length image' = length image /\
  forall p : nat,
    image' !! p =
      if decide (Z.of_nat p < n)
      then Some (at_index buffer (3 * Z.of_nat p))
      else if decide (Z.of_nat p < 2 * n)
      then Some (at_index buffer (3 * (Z.of_nat p - n) + 1))
      else if decide (Z.of_nat p < 3 * n)
      then Some (at_index buffer (3 * (Z.of_nat p - 2 * n) + 2))
      else image !! p.
Proof.
  intros (Hw & Hh & Hfit) Hl n. unfold INT_MAX in Hfit.
  assert (Hn : 0 < n) by (subst n; nia). fold n in Hfit, Hl.
  unfold deinterleave. fold n.
  assert (E1 : to_uint32 n = n)
    by (unfold to_uint32; apply Z.mod_small; lia).
  assert (E2 : to_uint32 (n * 2) = 2 * n)
    by (unfold to_uint32; rewrite Z.mod_small; lia).
  assert (E3 : to_int (n * 3 - 3) = 3 * n - 3).
  { unfold to_int, to_uint32. rewrite Z.mod_small by lia.
    destruct (n * 3 - 3 <? 2 ^ 31) eqn:E; [lia|]. apply Z.ltb_ge in E. lia. }
  rewrite E1, E2, E3.
  destruct (rgb_loop_lookup buffer n (Z.to_nat (3 * n - 3 + 1)) 0 image)
    as [Hlen Hp]; [lia|lia|lia|].
  replace (3 * 0) with 0 in * by lia.
  replace (n + 0) with n in * by lia.
  replace (2 * n + 0) with (2 * n) in * by lia.
  cbv zeta. split; [exact Hlen|].
  intros p. rewrite Hp. repeat case_decide; try lia; reflexivity.
Qed.

(** Plane [c] of the split image holds byte [c] of every pixel. *)
Lemma deinterleave_plane (w h : Z) (buffer image : list byte) (c : Z) :
  frame_fits w h ->
  3 * (w * h) <= Z.of_nat (length image) ->
  0 <= c < 3 ->
  plane c (w * h) (deinterleave w h buffer image) =
    map (fun j : nat => at_index buffer (3 * Z.of_nat j + c))
        (seq 0 (Z.to_nat (w * h))).
Proof.
  intros Hfit Hl Hc.
  destruct (deinterleave_lookup w h buffer image Hfit Hl) as [Hlen Hp].
  destruct Hfit as (Hw & Hh & Hfit).
  set (n := w * h) in *. cbv zeta in Hp.
  assert (Hn : 0 < n) by (subst n; nia).
  apply list_eq. intros i. unfold plane.
  rewrite lookup_take, lookup_drop, Hp.
  change (map ?f ?l) with (f <$> l). rewrite list_lookup_fmap.
  destruct (decide (i < Z.to_nat n)%nat) as [Hi|Hi].
  - rewrite lookup_seq_lt by exact Hi. cbn.
    assert (c = 0 \/ c = 1 \/ c = 2) as [->|[->| ->]] by lia;
      repeat case_decide; try lia; repeat f_equal; lia.
  - rewrite (proj2 (lookup_ge_None _ _)); [reflexivity|].
    rewrite length_seq. lia.
Qed.

Lemma at_index_tail (x y z : byte) (rest : list byte) (j : nat) (c : Z) :
  0 <= c ->
  at_index (x :: y :: z :: rest) (3 * Z.of_nat (S j) + c) =
  at_index rest (3 * Z.of_nat j + c).
Proof.
  intros Hc. unfold at_index.
  replace (Z.to_nat (3 * Z.of_nat (S j) + c))
    with (S (S (S (Z.to_nat (3 * Z.of_nat j + c))))) by lia.
  reflexivity.
Qed.

(** Interleaving byte 0, byte 1 and byte 2 of every pixel of a buffer of
    [n] pixels gives the buffer back. *)
Lemma interleave_bytes (n : nat) :
  forall buffer : list byte,
    length buffer = (3 * n)%nat ->
    interleave
      (map (fun j : nat => at_index buffer (3 * Z.of_nat j + 0)) (seq 0 n))
      (map (fun j : nat => at_index buffer (3 * Z.of_nat j + 1)) (seq 0 n))
      (map (fun j : nat => at_index buffer (3 * Z.of_nat j + 2)) (seq 0 n))
    = buffer.
Proof.
  induction n as [|n IH]; intros buffer Hlen.
  - destruct buffer; [reflexivity|discriminate Hlen].
  - destruct buffer as [|x [|y [|z rest]]]; cbn in Hlen; try lia.
    rewrite <- cons_seq, <- fmap_S_seq.
    change (S <$> seq 0 n) with (map S (seq 0 n)).
    cbn [map]. rewrite !map_map.
    rewrite (map_ext _ (fun j : nat => at_index rest (3 * Z.of_nat j + 0)))
      by (intros j; apply at_index_tail; lia).
    rewrite (map_ext (fun j => at_index _ (3 * Z.of_nat (S j) + 1))
                     (fun j : nat => at_index rest (3 * Z.of_nat j + 1)))
      by (intros j; apply at_index_tail; lia).
    rewrite (map_ext (fun j => at_index _ (3 * Z.of_nat (S j) + 2))
                     (fun j : nat => at_index rest (3 * Z.of_nat j + 2)))
      by (intros j; apply at_index_tail; lia).
    cbn [interleave]. rewrite IH by lia. reflexivity.
Qed.

(** C2: for a frame of [w] by [h] pixels, [w] and [h] positive (and the
    byte count within [int], which the driver computes it in), splitting an
    interleaved RGB buffer of [w * h * 3] bytes into the R, G and B planes
    of the frame buffer and interleaving the three planes again gives the
    buffer back; the rest of the frame buffer is not touched in length. *)
Theorem deinterleave_interleave (w h : Z) (buffer image : list byte) :
  0 < w -> 0 < h ->
  w * h * 3 <= INT_MAX ->
  Z.of_nat (length buffer) = w * h * 3 ->
  w * h * 3 <= Z.of_nat (length image) ->
  let image' := deinterleave w h buffer image in
  let R := plane 0 (w * h) image' in
  let G := plane 1 (w * h) image' in
  let B := plane 2 (w * h) image' in
  interleave R G B = buffer /\
  length image' = length image /\
  (forall i : nat, at_index R (Z.of_nat i) = at_index buffer (3 * Z.of_nat i)) /\
  (forall i : nat, at_index G (Z.of_nat i) = at_index buffer (3 * Z.of_nat i + 1)) /\
  (forall i : nat, at_index B (Z.of_nat i) = at_index buffer (3 * Z.of_nat i + 2)).
Proof.
  intros Hw Hh Hfit Hb Hi. cbv zeta.
  assert (F : frame_fits w h) by (unfold frame_fits; lia).
  assert (Hi' : 3 * (w * h) <= Z.of_nat (length image)) by lia.
  rewrite !deinterleave_plane by (assumption || lia).
  split; [|split].
  - apply interleave_bytes. nia.
  - apply (deinterleave_lookup w h buffer image F Hi').
  - assert (Hn : 0 < w * h) by nia.
    assert (A : forall (c : Z) (i : nat), 0 <= c < 3 ->
              at_index
                (map (fun j : nat => at_index buffer (3 * Z.of_nat j + c))
                     (seq 0 (Z.to_nat (w * h)))) (Z.of_nat i)
              = at_index buffer (3 * Z.of_nat i + c)).
    { intros c i Hc. unfold at_index at 1. rewrite Nat2Z.id.
      change (map ?f ?l) with (f <$> l). rewrite list_lookup_fmap.
      destruct (decide (i < Z.to_nat (w * h))%nat) as [Hlt|Hge].
      - rewrite lookup_seq_lt by exact Hlt. reflexivity.
      - rewrite (proj2 (lookup_ge_None (seq 0 (Z.to_nat (w * h))) i))
          by (rewrite length_seq; lia).
        cbn. unfold at_index.
        rewrite (proj2 (lookup_ge_None buffer _)) by lia. reflexivity. }
    repeat split; intros i; [|apply A; lia|apply A; lia].
    rewrite (A 0 i) by lia. f_equal. lia.
Qed.

(** A frame of 2 by 1 pixels in a frame buffer of 6 bytes. *)
Lemma deinterleave_interleave_witness :
  let buffer := ["1"; "2"; "3"; "4"; "5"; "6"]%byte in
  let image' := deinterleave 2 1 buffer (replicate 6 x00) in
  0 < 2 /\ 0 < 1 /\
  image' = ["1"; "4"; "2"; "5"; "3"; "6"]%byte /\
  interleave (plane 0 (2 * 1) image') (plane 1 (2 * 1) image')
             (plane 2 (2 * 1) image') = buffer.
Proof.
  cbv zeta.
  assert (H1 : 0 < 2) by reflexivity.
  assert (H2 : 0 < 1) by reflexivity.
  assert (H3 : 2 * 1 * 3 <= INT_MAX) by (vm_compute; discriminate).
  assert (H4 : Z.of_nat (length ["1"; "2"; "3"; "4"; "5"; "6"]%byte) = 2 * 1 * 3)
    by reflexivity.
  assert (H5 : 2 * 1 * 3 <= Z.of_nat (length (replicate 6 x00)))
    by (vm_compute; discriminate).
  exact (conj H1 (conj H2 (conj eq_refl
    (proj1 (deinterleave_interleave 2 1
              ["1"; "2"; "3"; "4"; "5"; "6"]%byte (replicate 6 x00)
              H1 H2 H3 H4 H5))))).
Defined.

End PlaneSplit.

(* ===================================================================== *)
(** * Further properties of the driver                                    *)
(* ===================================================================== *)

(** ** FourCC tags and the Bayer pattern *)

Section BayerFacts.
Import Bayer.

Lemma to_uint8_range (z : Z) : 0 <= to_uint8 z < 256.
Proof. unfold to_uint8. apply Z.mod_pos_bound. reflexivity. Qed.

Lemma to_uint8_bits (z m : Z) :
  Z.testbit (to_uint8 z) m = (m <? 8) && Z.testbit z m.
Proof. unfold to_uint8. now apply Z.testbit_mod_pow2. Qed.

(** Bit [m] of a tag is bit [m mod 8] of character [m / 8]. *)
Lemma MAKEFOURCC_bits (ch0 ch1 ch2 ch3 m : Z) :
  0 <= m ->
  Z.testbit (MAKEFOURCC ch0 ch1 ch2 ch3) m =
    if m <? 8 then Z.testbit ch0 m
    else if m <? 16 then Z.testbit ch1 (m - 8)
    else if m <? 24 then Z.testbit ch2 (m - 16)
    else if m <? 32 then Z.testbit ch3 (m - 24)
    else false.
Proof.
  intros Hm. unfold MAKEFOURCC, to_uint32.
  rewrite !Z.lor_spec, !Z.testbit_mod_pow2 by lia.
  rewrite !Z.shiftl_spec by lia.
  rewrite !Z.testbit_mod_pow2 by lia.
  rewrite !to_uint8_bits.
  destruct (m <? 8) eqn:E8; destruct (m <? 16) eqn:E16;
    destruct (m <? 24) eqn:E24; destruct (m <? 32) eqn:E32;
    rewrite ?Z.ltb_lt, ?Z.ltb_ge in *; try lia;
    repeat match goal with
    | |- context [?a <? ?b] =>
        let E := fresh in
        destruct (a <? b) eqn:E;
        rewrite ?Z.ltb_lt, ?Z.ltb_ge in E; try lia
    end;
    cbn [andb orb];
    rewrite ?(Z.testbit_neg_r ch1), ?(Z.testbit_neg_r ch2),
            ?(Z.testbit_neg_r ch3) by lia;
    rewrite ?orb_false_r, ?andb_false_r; reflexivity.
Qed.

(** X1: [MAKEFOURCC] is a packing without loss: byte [k] of the tag is
    character [k] cut to 8 bits, and the tag is a [uint32_t]. So two tags
    are equal only if their four characters agree as bytes. *)
Theorem MAKEFOURCC_bytes (ch0 ch1 ch2 ch3 : Z) :
  let tag := MAKEFOURCC ch0 ch1 ch2 ch3 in
  tag_byte 0 tag = to_uint8 ch0 /\
  tag_byte 1 tag = to_uint8 ch1 /\
  tag_byte 2 tag = to_uint8 ch2 /\
  tag_byte 3 tag = to_uint8 ch3 /\
  0 <= tag < 2 ^ 32 /\
  (forall d0 d1 d2 d3 : Z,
     MAKEFOURCC d0 d1 d2 d3 = tag ->
     to_uint8 d0 = to_uint8 ch0 /\ to_uint8 d1 = to_uint8 ch1 /\
     to_uint8 d2 = to_uint8 ch2 /\ to_uint8 d3 = to_uint8 ch3).
Proof.
  assert (B : forall c0 c1 c2 c3 : Z,
            tag_byte 0 (MAKEFOURCC c0 c1 c2 c3) = to_uint8 c0 /\
            tag_byte 1 (MAKEFOURCC c0 c1 c2 c3) = to_uint8 c1 /\
            tag_byte 2 (MAKEFOURCC c0 c1 c2 c3) = to_uint8 c2 /\
            tag_byte 3 (MAKEFOURCC c0 c1 c2 c3) = to_uint8 c3).
  { intros c0 c1 c2 c3. unfold tag_byte. change 255 with (Z.ones 8).
    rewrite !Z.land_ones by lia.
    repeat split; apply Z.bits_inj'; intros m Hm;
      rewrite Z.testbit_mod_pow2, Z.shiftr_spec, MAKEFOURCC_bits,
        to_uint8_bits by lia;
      (destruct (m <? 8) eqn:E; cbn [andb]; [|reflexivity]);
      apply Z.ltb_lt in E;
      repeat match goal with
      | |- context [?a <? ?b] =>
          let E' := fresh in
          destruct (a <? b) eqn:E';
          rewrite ?Z.ltb_lt, ?Z.ltb_ge in E'; try lia
      end;
      f_equal; lia. }
  cbv zeta. destruct (B ch0 ch1 ch2 ch3) as (B0 & B1 & B2 & B3).
  split; [exact B0|]. split; [exact B1|]. split; [exact B2|].
  split; [exact B3|]. split.
  - assert (E : MAKEFOURCC ch0 ch1 ch2 ch3 =
                (MAKEFOURCC ch0 ch1 ch2 ch3) mod 2 ^ 32).
    { apply Z.bits_inj'. intros m Hm.
      rewrite Z.testbit_mod_pow2, MAKEFOURCC_bits by lia.
      repeat match goal with
      | |- context [?a <? ?b] =>
          let E' := fresh in
          destruct (a <? b) eqn:E';
          rewrite ?Z.ltb_lt, ?Z.ltb_ge in E'; try lia
      end; reflexivity. }
    rewrite E. apply Z.mod_pos_bound. reflexivity.
  - intros d0 d1 d2 d3 H.
    destruct (B d0 d1 d2 d3) as (D0 & D1 & D2 & D3).
    rewrite H in D0, D1, D2, D3.
    rewrite <- B0, <- B1, <- B2, <- B3, D0, D1, D2, D3. repeat split.
Qed.

(** X2: [getBayerString] always returns one of the four Bayer patterns, the
    one that names the pixel format it stores, and records the bit depth.
    For the FourCC tag of a Bayer pattern the string spells that tag; for
    every other tag (also the 0 left by a failed [get_RawFormat]) it falls
    back to RGGB. *)
Theorem getBayerString_spec (st : ToupBase) (nFourCC nBitDepth : Z) :
  let r := getBayerString nFourCC nBitDepth st in
  pattern_of (m_CameraPixelFormat (final r)) = Some (result r) /\
  m_RawBitsPerPixel (final r) = nBitDepth /\
  trace r = [get_RawFormat] /\
  (In nFourCC [FMT_GBRG; FMT_RGGB; FMT_BGGR; FMT_GRBG] ->
     tag_of_string (result r) = Some nFourCC) /\
  (~ In nFourCC [FMT_GBRG; FMT_RGGB; FMT_BGGR; FMT_GRBG] ->
     result r = "RGGB"%string /\
     m_CameraPixelFormat (final r) = INDI_BAYER_RGGB).
Proof.
  cbv zeta. unfold getBayerString. drv_unfold.
  destruct (nFourCC =? FMT_GBRG) eqn:E1;
    [|destruct (nFourCC =? FMT_RGGB) eqn:E2];
    [| |destruct (nFourCC =? FMT_BGGR) eqn:E3];
    [| | |destruct (nFourCC =? FMT_GRBG) eqn:E4];
    rewrite ?Z.eqb_eq, ?Z.eqb_neq in *; cbn [fst snd];
    (split; [reflexivity|]); (split; [reflexivity|]);
    (split; [reflexivity|]); split;
    try (intros _; subst nFourCC; reflexivity);
    try (intros H; exfalso; apply H; subst nFourCC; simpl; tauto).
  - intros [H|[H|[H|[H|[]]]]]; congruence.
  - intros _. split; reflexivity.
Qed.

(** The tag of RGGB, and a tag the driver does not know. *)
Lemma getBayerString_spec_witness :
  let st := {| m_RawBitsPerPixel := 0; m_CameraPixelFormat := INDI_MONO |} in
  (In FMT_RGGB [FMT_GBRG; FMT_RGGB; FMT_BGGR; FMT_GRBG] /\
   tag_of_string (result (getBayerString FMT_RGGB 12 st)) = Some FMT_RGGB) /\
  (~ In FMT_YUV411 [FMT_GBRG; FMT_RGGB; FMT_BGGR; FMT_GRBG] /\
   result (getBayerString FMT_YUV411 8 st) = "RGGB"%string).
Proof.
  cbv zeta.
  set (st := {| m_RawBitsPerPixel := 0; m_CameraPixelFormat := INDI_MONO |}).
  assert (H1 : In FMT_RGGB [FMT_GBRG; FMT_RGGB; FMT_BGGR; FMT_GRBG])
    by (right; left; reflexivity).
  assert (H2 : ~ In FMT_YUV411 [FMT_GBRG; FMT_RGGB; FMT_BGGR; FMT_GRBG])
    by (intros [H|[H|[H|[H|[]]]]]; discriminate H).
  pose proof (getBayerString_spec st FMT_RGGB 12) as A.
  pose proof (getBayerString_spec st FMT_YUV411 8) as B.
  exact (conj (conj H1 (proj1 (proj2 (proj2 (proj2 A))) H1))
              (conj H2 (proj1 (proj2 (proj2 (proj2 (proj2 B))) H2)))).
Defined.

End BayerFacts.

(** ** Pulse guiding under the event loop *)

Section GuideLoopFacts.
Import Guiding GuideLoop.

Lemma Guide_guidePulse (dir : eGUIDEDIRECTION) (ms : Z) (rc : HRESULT) (tid : Z) :
  Guide dir ms rc tid = guidePulse (axis_of dir) ms dir rc tid.
Proof. destruct dir; reflexivity. Qed.

Lemma guide_count_app (p : Event -> bool) (a b : list Event) :
  count p (a ++ b) = (count p a + count p b)%nat.
Proof. unfold count. now rewrite List.filter_app, length_app. Qed.

(** One call keeps the agreement, and pays for every timer it adds. *)
Lemma step_agree (w : World) (c : Call) :
  agree w ->
  fresh w c = true ->
  agree (step w c).1 /\
  forall a,
    (count (adds a) (step w c).2 + length (pending a (driver w)) =
     count (completes a) (step w c).2 + length (pending a (driver (step w c).1)))%nat.
Proof.
  destruct w as [[ns we nsd wed] tm]. unfold agree. cbn [driver timers].
  intros [Ht Hd] Hf.
  pose proof (Ht AXIS_DE) as HtN. pose proof (Ht AXIS_RA) as HtW.
  unfold pending in *. cbn [timerID NStimerID WEtimerID] in *.
  destruct c as [dir ms rc tid|a id|].
  - cbn [fresh timers] in Hf. apply andb_prop in Hf as [Hf1 Hf2].
    apply negb_true_iff, Z.eqb_neq in Hf1. apply negb_true_iff in Hf2.
    destruct dir; cbn [axis_of other] in Hf2;
      cbn [step Guide driver timers fst snd];
      unfold GuideNorth, GuideSouth, GuideEast, GuideWest,
        guidePulseNS, guidePulseWE, stopTimerNS, stopTimerWE; drv_unfold.
    all: cbn [NStimerID WEtimerID timerID].
    all: destruct (ns =? -1) eqn:En; destruct (we =? -1) eqn:Ew;
      destruct (FAILED rc); try destruct (ms <? 50);
      cbn [negb]; cbn -[Z.eqb]; rewrite ?En, ?Ew.
    all: (split; [split; [intros a|] | intros a]).
    all: try (destruct a; rewrite ?HtN, ?HtW; cbn -[Z.eqb]).
    all: rewrite ?En, ?Ew, ?(proj2 (Z.eqb_neq tid (-1)) Hf1); try reflexivity.
    all: rewrite ?Z.eqb_eq, ?Z.eqb_neq in *; try (intros; congruence).
    all: try (rewrite ?HtN, ?HtW in Hf2; cbn in Hf2;
              rewrite ?orb_false_r in Hf2; apply Z.eqb_neq in Hf2).
    all: repeat case_decide; cbn; try congruence;
      try (intros; congruence);
      try (specialize (Hd ltac:(assumption) ltac:(assumption)); congruence).
  - clear Hf. cbn [step driver timers].
    destruct (existsb (Z.eqb id) (tm a)) eqn:Hin.
    + destruct a; rewrite ?HtN, ?HtW in Hin;
        unfold TimerHelper, TimerNS, TimerWE; drv_unfold;
        destruct (ns =? -1) eqn:En; destruct (we =? -1) eqn:Ew;
        cbn in Hin; try discriminate;
        rewrite orb_false_r in Hin; apply Z.eqb_eq in Hin; subst id;
        cbn -[Z.eqb].
      all: (split; [split; [intros a|] | intros a]).
      all: try (destruct a; rewrite ?HtN, ?HtW; cbn -[Z.eqb]).
      all: rewrite ?En, ?Ew; try reflexivity.
      all: rewrite ?Z.eqb_eq, ?Z.eqb_neq in *; try (intros; congruence).
      all: repeat case_decide; cbn; try congruence.
    + cbn [fst snd driver timers]. split; [split; [exact Ht|exact Hd]|].
      intros a0. reflexivity.
  - clear Hf. cbn [step driver timers fst snd].
    unfold Disconnect, stopTimerNS, stopTimerWE; drv_unfold.
    cbn [NStimerID WEtimerID timerID].
    destruct (ns =? -1) eqn:En; destruct (we =? -1) eqn:Ew;
      cbn [negb]; cbn -[Z.eqb]; rewrite ?En, ?Ew; cbn -[Z.eqb].
    all: (split; [split; [intros a|] | intros a]).
    all: try (destruct a; rewrite ?HtN, ?HtW; cbn -[Z.eqb]).
    all: rewrite ?En, ?Ew; try reflexivity.
    all: rewrite ?Z.eqb_eq, ?Z.eqb_neq in *; try (intros; congruence).
    all: repeat (case_decide; cbn); try congruence;
      try (specialize (Hd ltac:(assumption) ltac:(assumption)); congruence).
Qed.

Lemma run_agree (cs : list Call) :
  forall w : World,
    agree w ->
    admissible cs w = true ->
    agree (run cs w).1 /\
    forall a,
      (count (adds a) (run cs w).2 + length (pending a (driver w)) =
       count (completes a) (run cs w).2 +
       length (pending a (driver (run cs w).1)))%nat.
Proof.
  induction cs as [|c cs IH]; intros w Hw Ha.
  - cbn. split; [exact Hw|]. intros a. reflexivity.
  - cbn [admissible] in Ha. apply andb_prop in Ha as [Hf Ha].
    destruct (step_agree w c Hw Hf) as [Hw1 Hc1].
    cbn [run]. destruct (step w c) as [w1 t1] eqn:Es. cbn [fst snd] in *.
    destruct (IH w1 Hw1 Ha) as [Hw2 Hc2].
    destruct (run cs w1) as [w2 t2]. cbn [fst snd] in *.
    split; [exact Hw2|]. intros a.
    rewrite !guide_count_app. specialize (Hc1 a). specialize (Hc2 a). lia.
Qed.

(** X3: in every run of guide commands, timer callbacks and disconnects
    from the constructor state, in which the event loop hands out timer
    identifiers other than -1 and distinct from the one of the other
    callback, the event loop holds for each axis exactly the timer the
    driver has recorded, so at most one; and the timers added for an axis
    are the pulses completed on it plus the one still pending. *)
Theorem guide_run_invariant (cs : list Call) (a : INDI_EQ_AXIS) :
  admissible cs world0 = true ->
  let w := (run cs world0).1 in
  let tr := (run cs world0).2 in
  timers w a = pending a (driver w) /\
  (length (timers w a) <= 1)%nat /\
  count (adds a) tr = (count (completes a) tr + length (timers w a))%nat.
Proof.
  intros Ha w tr.
  assert (H0 : agree world0).
  { split; [intros b; destruct b; reflexivity|]. cbn. congruence. }
  destruct (run_agree cs world0 H0 Ha) as [[Ht _] Hc].
  fold w in Ht, Hc. fold tr in Hc. specialize (Hc a).
  rewrite (Ht a). split; [reflexivity|].
  split.
  - unfold pending. destruct (_ =? -1); cbn; lia.
  - replace (length (pending a (driver world0))) with 0%nat in Hc
      by (destruct a; reflexivity).
    lia.
Qed.

(** Two pulses to the north, one to the east, the east timer fires, a
    short pulse to the west, then the driver disconnects. *)
Lemma guide_run_invariant_witness :
  let cs := [Command TOUPBASE_NORTH 100 S_OK 1;
             Command TOUPBASE_NORTH 200 S_OK 2;
             Command TOUPBASE_EAST 300 S_OK 3;
             Fire AXIS_RA 3;
             Command TOUPBASE_WEST 20 S_OK 4;
             Unplug] in
  admissible cs world0 = true /\
  count (adds AXIS_DE) (run cs world0).2 =
    (count (completes AXIS_DE) (run cs world0).2 +
     length (timers (run cs world0).1 AXIS_DE))%nat.
Proof.
  cbv zeta.
  set (cs := [Command TOUPBASE_NORTH 100 S_OK 1;
              Command TOUPBASE_NORTH 200 S_OK 2;
              Command TOUPBASE_EAST 300 S_OK 3;
              Fire AXIS_RA 3;
              Command TOUPBASE_WEST 20 S_OK 4;
              Unplug]).
  assert (H : admissible cs world0 = true) by (vm_compute; reflexivity).
  exact (conj H (proj2 (proj2 (guide_run_invariant cs AXIS_DE H)))).
Defined.

Example guide_run_trace :
  (run [Command TOUPBASE_NORTH 100 S_OK 1;
        Command TOUPBASE_NORTH 200 S_OK 2;
        Command TOUPBASE_EAST 300 S_OK 3;
        Fire AXIS_RA 3;
        Command TOUPBASE_WEST 20 S_OK 4;
        Unplug] world0).2 =
  [ST4PlusGuide TOUPBASE_NORTH 100; IEAddTimer 100 AXIS_DE;
   GuideComplete AXIS_DE; IERmTimer 1;
   ST4PlusGuide TOUPBASE_NORTH 200; IEAddTimer 200 AXIS_DE;
   ST4PlusGuide TOUPBASE_EAST 300; IEAddTimer 300 AXIS_RA;
   GuideComplete AXIS_RA;
   ST4PlusGuide TOUPBASE_WEST 20; usleep 20000;
   GuideComplete AXIS_DE; IERmTimer 2; Close].
Proof. vm_compute. reflexivity. Qed.

#[local] Arguments to_int : simpl never.
#[local] Arguments to_uint32 : simpl never.

(** X4: a guide command for [ms] milliseconds ([ms] a [uint32_t]) commands
    the relay exactly once, whatever comes of it, and records the
    direction. It answers alert exactly when the camera rejects the
    command, ok exactly when it sleeps, and busy exactly when it adds a
    timer for its own axis; it never answers idle. The timer gets [ms] as
    an [int]: [ms] itself up to 2^31 - 1 and [ms - 2^32], a negative
    number, from 2^31 on. It sleeps only for pulses under 50 ms, and then
    for [ms * 1000] microseconds, a value below 50000 that the conversions
    to [int] and back leave as it is. *)
Theorem Guide_result (dir : eGUIDEDIRECTION) (ms : Z) (rc : HRESULT) (tid : Z)
    (st : ToupBase) :
  0 <= ms < 2 ^ 32 ->
  let r := Guide dir ms rc tid st in
  let a := axis_of dir in
  count is_ST4PlusGuide (trace r) = 1%nat /\
  In (ST4PlusGuide dir ms) (trace r) /\
  match a with AXIS_DE => NSDir (final r) | AXIS_RA => WEDir (final r) end = dir /\
  (result r = IPS_ALERT <-> FAILED rc = true) /\
  (result r = IPS_OK <-> count is_usleep (trace r) = 1%nat) /\
  (result r = IPS_BUSY <-> In (IEAddTimer (to_int ms) a) (trace r)) /\
  (forall t b, In (IEAddTimer t b) (trace r) ->
     b = a /\ 50 <= ms /\ t = if ms <? 2 ^ 31 then ms else ms - 2 ^ 32) /\
  result r <> IPS_IDLE /\
  count (adds (other a)) (trace r) = 0%nat /\
  (count (adds a) (trace r) + count is_usleep (trace r) <= 1)%nat /\
  (forall u, In (usleep u) (trace r) ->
     u = ms * 1000 /\ ms < 50 /\ 0 <= u < 50000).
Proof.
  intros Hms r a. subst r a.
  assert (Hu : ms < 50 -> to_uint32 (to_int (ms * 1000)) = ms * 1000).
  { intros H. unfold to_int, to_uint32.
    rewrite (Z.mod_small (ms * 1000)) by lia.
    destruct (ms * 1000 <? 2 ^ 31) eqn:E;
      [apply Z.mod_small; lia | apply Z.ltb_ge in E; lia]. }
  assert (Ht : to_int ms = if ms <? 2 ^ 31 then ms else ms - 2 ^ 32).
  { unfold to_int, to_uint32. rewrite Z.mod_small by lia. reflexivity. }
  destruct dir; cbn [Guide axis_of other];
    unfold GuideNorth, GuideSouth, GuideEast, GuideWest,
      guidePulseNS, guidePulseWE, stopTimerNS, stopTimerWE; drv_unfold;
    cbn [NStimerID WEtimerID];
    destruct (negb (_ =? -1)); destruct (FAILED rc);
    try destruct (ms <? 50) eqn:E50;
    rewrite ?Z.ltb_lt, ?Z.ltb_ge in E50; cbn.
  all: repeat match goal with |- _ /\ _ => split end.
  all: try reflexivity; try discriminate; try lia; try tauto.
  all: try (split; intros H; try reflexivity; try discriminate; try tauto;
            cbn in H; intuition discriminate).
  all: try (intros u Hin; cbn in Hin;
            repeat match goal with
                   | H : _ \/ _ |- _ => destruct H as [H|H]; try discriminate H
                   end;
            try contradiction;
            match goal with
            | H : usleep _ = usleep _ |- _ =>
                injection H as <-; rewrite Hu by lia; lia
            end).
  all: intros t b Hin; cbn in Hin;
    repeat match goal with
           | H : _ \/ _ |- _ => destruct H as [H|H]; try discriminate H
           end;
    try contradiction;
    match goal with
    | H : IEAddTimer _ _ = IEAddTimer _ _ |- _ =>
        injection H as <- <-; rewrite <- Ht; repeat split; lia
    end.
Qed.

(** A pulse of 20 ms to the west is slept through; one of 3000000000 ms
    to the north adds a timer of a negative number of milliseconds. *)
Lemma Guide_result_witness :
  (0 <= 20 < 2 ^ 32 /\
   (result (Guide TOUPBASE_WEST 20 S_OK 5 initial) = IPS_OK <->
    count is_usleep (trace (Guide TOUPBASE_WEST 20 S_OK 5 initial)) = 1%nat)) /\
  (0 <= 3000000000 < 2 ^ 32 /\
   (result (Guide TOUPBASE_NORTH 3000000000 S_OK 5 initial) = IPS_BUSY <->
    In (IEAddTimer (to_int 3000000000) AXIS_DE)
       (trace (Guide TOUPBASE_NORTH 3000000000 S_OK 5 initial)))).
Proof.
  assert (H : 0 <= 20 < 2 ^ 32) by lia.
  assert (G : 0 <= 3000000000 < 2 ^ 32) by lia.
  exact (conj
    (conj H (proj1 (proj2 (proj2 (proj2 (proj2
       (Guide_result TOUPBASE_WEST 20 S_OK 5 initial H)))))))
    (conj G (proj1 (proj2 (proj2 (proj2 (proj2 (proj2
       (Guide_result TOUPBASE_NORTH 3000000000 S_OK 5 initial G))))))))).
Defined.

Example Guide_long_pulse :
  trace (Guide TOUPBASE_NORTH 3000000000 S_OK 5 initial) =
  [ST4PlusGuide TOUPBASE_NORTH 3000000000; IEAddTimer (-1294967296) AXIS_DE].
Proof. vm_compute. reflexivity. Qed.

(** X5: [Disconnect], from any state, leaves no pulse pending on either
    axis: it signals completion once for each axis that had a pulse
    pending and for no other, removes the timer of each such pulse, and
    closes the camera last; it commands no relay, adds no timer, and
    answers true. *)
Theorem Disconnect_spec (st : ToupBase) :
  let r := Disconnect st in
  result r = true /\
  (forall a, timerID a (final r) = -1) /\
  (forall a, count (completes a) (trace r) = length (pending a st)) /\
  (forall a id, pending a st = [id] -> In (IERmTimer id) (trace r)) /\
  count is_IERmTimer (trace r) =
    (length (pending AXIS_DE st) + length (pending AXIS_RA st))%nat /\
  (exists pre, trace r = pre ++ [Close] /\ count is_Close pre = 0%nat) /\
  count is_ST4PlusGuide (trace r) = 0%nat /\
  (forall a, count (adds a) (trace r) = 0%nat).
Proof.
  cbv zeta. unfold Disconnect, stopTimerNS, stopTimerWE, pending. drv_unfold.
  destruct st as [ns we nsd wed]. cbn [NStimerID WEtimerID timerID].
  destruct (ns =? -1) eqn:En; destruct (we =? -1) eqn:Ew;
    cbn [negb]; cbn -[Z.eqb]; rewrite ?En, ?Ew; cbn -[Z.eqb].
  all: repeat match goal with |- _ /\ _ => split end.
  all: try reflexivity.
  all: try (intros a; destruct a; cbn -[Z.eqb]; rewrite ?En, ?Ew; reflexivity).
  all: try (intros a id; destruct a; cbn -[Z.eqb]; rewrite ?En, ?Ew;
            intros H; try discriminate H; injection H as <-; cbn; tauto).
  all: try (intros a; destruct a; cbn;
            first [reflexivity | apply Z.eqb_eq; assumption]).
  all: first [ exists [] ; split; reflexivity
             | eexists [_; _]; split; reflexivity
             | eexists [_; _; _; _]; split; reflexivity ].
Qed.



End GuideLoopFacts.
